(** * USAspending pull scripts: a shallow embedding and its properties

    The development follows [usaspending_doi.py] and [usaspending_ees.py]:
    the weekly date-range generator, the paginated fetch loops, the
    pandas post-processing and the weekly/complete CSV writer of [main].

    Library behaviour the scripts rely on (CPython's [datetime], the
    [requests] client, [pandas]) is modelled next to the code that uses it
    and is marked as such. *)

From Stdlib Require Import ZArith QArith Lia Ascii String List Bool.
From Equations Require Import Equations.
From stdpp Require Import base option list strings gmap pretty sorting.

#[local] Open Scope string_scope.
#[local] Open Scope list_scope.
#[local] Open Scope Z_scope.

(** ** Exceptions and generators *)

(** The exceptions that can leave the modelled functions. *)
Inductive exn : Type :=
| ValueError       (* strptime on a malformed date, pandas conversions *)
| OverflowError    (* datetime arithmetic outside year 1..9999 *)
| KeyError         (* a missing dict key or DataFrame column *)
| TypeError        (* subscripting a JSON value that is not an object *)
| AttributeError.  (* [.get] on a JSON value that is not an object *)

(** Result of a call: a returned value or a raised exception. *)
Inductive result (A : Type) : Type :=
| Returned (a : A)
| Raised (e : exn).
Arguments Returned {A} a.
Arguments Raised {A} e.

(** Sequencing: an exception of the first step leaves the rest undone. *)
#[global] Instance result_bind : MBind result :=
  fun A B f r => match r with Returned a => f a | Raised e => Raised e end.

(** A Python generator run to exhaustion: the items it yielded, in order,
    and how the iteration ended ([None] is StopIteration, [Some e] an
    exception raised from inside the generator after those yields). *)
Record generated (A : Type) : Type := Generated {
  yielded : list A;
  stopped : option exn
}.
Arguments Generated {A} yielded stopped.
Arguments yielded {A} g.
Arguments stopped {A} g.

Definition gen_yield {A} (x : A) (g : generated A) : generated A :=
  Generated (x :: yielded g) (stopped g).

(** ** CPython [datetime] at day resolution

    [datetime.strptime(s, '%Y-%m-%d')] gives midnight of a calendar day, and
    adding [timedelta(days=n)] keeps midnight, so a datetime is represented
    by its proleptic Gregorian ordinal (1 is 0001-01-01); comparison of
    datetimes is comparison of ordinals. *)
Module Datetime.

Definition MINYEAR : Z := 1.

Definition is_leap (year : Z) : bool :=
  (year mod 4 =? 0) && (negb (year mod 100 =? 0) || (year mod 400 =? 0)).

Definition DAYS_IN_MONTH (month : Z) : Z :=
  match month with
  | 1 => 31 | 2 => 28 | 3 => 31 | 4 => 30 | 5 => 31 | 6 => 30
  | 7 => 31 | 8 => 31 | 9 => 30 | 10 => 31 | 11 => 30 | 12 => 31
  | _ => -1
  end.

Definition DAYS_BEFORE_MONTH (month : Z) : Z :=
  match month with
  | 1 => 0 | 2 => 31 | 3 => 59 | 4 => 90 | 5 => 120 | 6 => 151
  | 7 => 181 | 8 => 212 | 9 => 243 | 10 => 273 | 11 => 304 | 12 => 334
  | _ => -1
  end.

Definition days_before_year (year : Z) : Z :=
  let y := year - 1 in y * 365 + y / 4 - y / 100 + y / 400.

Definition days_in_month (year month : Z) : Z :=
  if (month =? 2) && is_leap year then 29 else DAYS_IN_MONTH month.

Definition days_before_month (year month : Z) : Z :=
  DAYS_BEFORE_MONTH month + (if (2 <? month) && is_leap year then 1 else 0).

Definition ymd2ord (year month day : Z) : Z :=
  days_before_year year + days_before_month year month + day.

Definition DI400Y : Z := 146097.
Definition DI100Y : Z := 36524.
Definition DI4Y : Z := 1461.

Definition ord2ymd (n : Z) : Z * Z * Z :=
  let n := n - 1 in
  let n400 := n / DI400Y in let n := n mod DI400Y in
  let year := n400 * 400 + 1 in
  let n100 := n / DI100Y in let n := n mod DI100Y in
  let n4 := n / DI4Y in let n := n mod DI4Y in
  let n1 := n / 365 in let n := n mod 365 in
  let year := year + n100 * 100 + n4 * 4 + n1 in
  if (n1 =? 4) || (n100 =? 4) then (year - 1, 12, 31)
  else
    let leapyear := (n1 =? 3) && (negb (n4 =? 24) || (n100 =? 3)) in
    let month := Z.shiftr (n + 50) 5 in
    let preceding :=
      DAYS_BEFORE_MONTH month + (if (2 <? month) && leapyear then 1 else 0) in
    if n <? preceding then
      let month := month - 1 in
      let preceding :=
        preceding - (DAYS_IN_MONTH month
                     + (if (month =? 2) && leapyear then 1 else 0)) in
      (year, month, n - preceding + 1)
    else (year, month, n - preceding + 1).

(** Ordinals of [datetime.min] and [datetime.max]. *)
Definition MINORDINAL : Z := 1.
Definition MAXORDINAL : Z := 3652059.

(** [d + timedelta(days=n)]: OverflowError outside [datetime.min ..
    datetime.max]. *)
Definition add_days (d n : Z) : result Z :=
  let r := d + n in
  if (MINORDINAL <=? r) && (r <=? MAXORDINAL) then Returned r
  else Raised OverflowError.

(** *** [strptime] and [strftime] for the format ['%Y-%m-%d'] *)

Definition is_digit (c : ascii) : bool :=
  let n := Z.of_nat (nat_of_ascii c) in (48 <=? n) && (n <=? 57).

Definition digit (c : ascii) : Z := Z.of_nat (nat_of_ascii c) - 48.

(** [%Y] is four digits. *)
Definition parse_year (s : string) : option Z :=
  match s with
  | String a (String b (String c (String d EmptyString))) =>
      if is_digit a && is_digit b && is_digit c && is_digit d
      then Some (digit a * 1000 + digit b * 100 + digit c * 10 + digit d)
      else None
  | _ => None
  end.

(** [%m] is [1[0-2]|0[1-9]|[1-9]]. *)
Definition parse_month (s : string) : option Z :=
  match s with
  | String a EmptyString =>
      if is_digit a && (1 <=? digit a) then Some (digit a) else None
  | String a (String b EmptyString) =>
      let v := digit a * 10 + digit b in
      if is_digit a && is_digit b && (1 <=? v) && (v <=? 12) then Some v
      else None
  | _ => None
  end.

(** [%d] is [3[01]|[12]\d|0[1-9]|[1-9]| [1-9]]. *)
Definition parse_day (s : string) : option Z :=
  match s with
  | String a EmptyString =>
      if is_digit a && (1 <=? digit a) then Some (digit a) else None
  | String a (String b EmptyString) =>
      if Ascii.eqb a " " then
        if is_digit b && (1 <=? digit b) then Some (digit b) else None
      else
        let v := digit a * 10 + digit b in
        if is_digit a && is_digit b && (1 <=? v) && (v <=? 31) then Some v
        else None
  | _ => None
  end.

(** Splits at the first ['-']: the text before it and the text after. *)
Fixpoint split_dash (s : string) : option (string * string) :=
  match s with
  | EmptyString => None
  | String c rest =>
      if Ascii.eqb c "-" then Some (EmptyString, rest)
      else match split_dash rest with
           | Some (a, b) => Some (String c a, b)
           | None => None
           end
  end.

(** [datetime.strptime(s, '%Y-%m-%d')] as an ordinal; [None] is the
    ValueError of a string that does not match the format or names no
    calendar day. Strings are ASCII. *)
Definition strptime (s : string) : option Z :=
  '(ys, rest) ← split_dash s;
  '(ms, ds) ← split_dash rest;
  year ← parse_year ys;
  month ← parse_month ms;
  day ← parse_day ds;
  if (MINYEAR <=? year) && (day <=? days_in_month year month)
  then Some (ymd2ord year month day)
  else None.

Definition digit_char (n : Z) : ascii := ascii_of_nat (Z.to_nat (48 + n mod 10)).

Definition pad2 (n : Z) : string :=
  String (digit_char (n / 10)) (String (digit_char n) EmptyString).

Definition pad4 (n : Z) : string :=
  String (digit_char (n / 1000)) (String (digit_char (n / 100)) (pad2 n)).

(** [%Y] as the C library's [strftime] writes it for CPython on Linux: the
    year as a decimal number without padding, so a year below 1000 has
    fewer than four digits. *)
Definition year_digits (year : Z) : string :=
  if year <? 10 then String (digit_char year) EmptyString
  else if year <? 100 then pad2 year
  else if year <? 1000 then String (digit_char (year / 100)) (pad2 year)
  else pad4 year.

(** [d.strftime('%Y-%m-%d')]: the month and the day are zero-padded to two
    digits, the year is not padded. *)
Definition strftime (d : Z) : string :=
  let '(year, month, day) := ord2ymd d in
  year_digits year +:+ "-" +:+ pad2 month +:+ "-" +:+ pad2 day.

End Datetime.

(** ** [pandas] tables

    The part of pandas the scripts use. A cell holds a JSON scalar of a
    result record (string, number or null) or a converted value. A number
    is the rational its int64 or float64 stands for, and sums are the exact
    sums: they are what pandas computes as long as its float64 arithmetic
    is exact on the values at hand. *)
Module Pandas.

Inductive cell : Type :=
| NaN                    (* null, None, NaN, NaT *)
| Str (s : string)
| Num (x : Q)
| Timestamp (ns : Z).

(** A result record: a JSON object with distinct keys, in document
    order. *)
Definition record : Type := list (string * cell).

Fixpoint assoc {A} (k : string) (l : list (string * A)) : option A :=
  match l with
  | [] => None
  | (k', v) :: rest => if String.eqb k k' then Some v else assoc k rest
  end.

(** A table: the length of its index and its columns in order. *)
Record DataFrame : Type := {
  nrows : nat;
  columns : list (string * list cell)
}.

(** [pd.DataFrame()] *)
Definition empty_frame : DataFrame := {| nrows := 0; columns := [] |}.

(** [df.empty]: some axis has length 0. *)
Definition empty (df : DataFrame) : bool :=
  (nrows df =? 0)%nat || (length (columns df) =? 0)%nat.

Definition column_names (df : DataFrame) : list string := (columns df).*1.

(** [name in df.columns] *)
Definition has_column (name : string) (df : DataFrame) : bool :=
  bool_decide (name ∈ column_names df).

(** [df[name]]; a missing column is a KeyError. *)
Definition get_column (name : string) (df : DataFrame) : result (list cell) :=
  match assoc name (columns df) with
  | Some col => Returned col
  | None => Raised KeyError
  end.

Fixpoint replace_column (name : string) (col : list cell)
    (cols : list (string * list cell)) : list (string * list cell) :=
  match cols with
  | [] => [(name, col)]
  | (k, c) :: rest =>
      if String.eqb name k then (k, col) :: rest
      else (k, c) :: replace_column name col rest
  end.

(** [df[name] = col]: in place for an existing column, appended
    otherwise. *)
Definition set_column (name : string) (col : list cell) (df : DataFrame)
  : DataFrame :=
  {| nrows := nrows df; columns := replace_column name col (columns df) |}.

(** Labels in order of first appearance. *)
Definition add_labels (seen new : list string) : list string :=
  fold_left (fun acc k => if bool_decide (k ∈ acc) then acc else acc ++ [k])
            new seen.

Definition record_get (k : string) (r : record) : cell :=
  default NaN (assoc k r).

(** [pd.DataFrame(data)] for a list of records: one row per record, one
    column per key, NaN where a record lacks the key. *)
Definition from_records (data : list record) : DataFrame :=
  let names := fold_left (fun acc r => add_labels acc (r.*1)) data [] in
  {| nrows := length data;
     columns := (fun k => (k, record_get k <$> data)) <$> names |}.

Definition column_or_nan (k : string) (df : DataFrame) : list cell :=
  default (replicate (nrows df) NaN) (assoc k (columns df)).

(** [pd.concat(frames, ignore_index=True)] for a non-empty list. *)
Definition concat (frames : list DataFrame) : DataFrame :=
  let names :=
    fold_left (fun acc df => add_labels acc (column_names df)) frames [] in
  {| nrows := sum_list (nrows <$> frames);
     columns :=
       (fun k => (k, mjoin ((column_or_nan k) <$> frames))) <$> names |}.

(** [series.map(mapping)] with a dict: a value that is not a key of the
    dict becomes NaN. *)
Definition map_dict (mapping : gmap string string) (col : list cell)
  : list cell :=
  (fun c => match c with
            | Str s => match mapping !! s with
                       | Some v => Str v
                       | None => NaN
                       end
            | _ => NaN
            end) <$> col.

(** One summary row: the sum of the amounts and the count of the non-null
    ones. The column is numeric (it went through [to_numeric]), so its
    cells are numbers and NaN. *)
Definition agg_add (v : cell) (row : Q * nat) : Q * nat :=
  match v with
  | Num x => (Qred (row.1 + x), S row.2)
  | NaN => row
  | _ => (row.1, S row.2)
  end.

Fixpoint group_insert (k : string) (v : cell)
    (groups : list (string * (Q * nat))) : list (string * (Q * nat)) :=
  match groups with
  | [] => [(k, agg_add v (0%Q, 0%nat))]
  | (k', row) :: rest =>
      if String.eqb k k' then (k', agg_add v row) :: rest
      else if String.ltb k k' then (k, agg_add v (0%Q, 0%nat)) :: groups
      else (k', row) :: group_insert k v rest
  end.

(** [df.groupby(key)[value].agg(['sum', 'count'])] on a string-valued key
    column and a numeric value column: one row per key in sorted order,
    rows with a NaN key dropped. *)
Definition groupby_sum_count (keys vals : list cell)
  : list (string * (Q * nat)) :=
  fold_left (fun groups kv =>
               match kv.1 with
               | Str k => group_insert k kv.2 groups
               | _ => groups
               end) (zip keys vals) [].

(** A character that can occur in a string [pd.to_numeric] parses: white
    space, a sign, the decimal point, a digit, the exponent mark, or a
    letter of "nan", "inf" and "infinity". *)
Definition numeric_char (c : ascii) : bool :=
  ((9 <=? nat_of_ascii c) && (nat_of_ascii c <=? 13))%nat
  || existsb (Ascii.eqb c)
             (list_ascii_of_string " +-.0123456789eEnNaAiIfFtTyY").

(** [pd.to_numeric] on one value. The empty string becomes NaN; a string
    with a character that no number has is a ValueError; for the other
    strings [numeric_of_string] is the parser pandas applies: the number
    the string denotes, or nothing (a ValueError). *)
Definition to_numeric_cell (numeric_of_string : string -> option Q)
  (c : cell) : result cell :=
match c with
| NaN => Returned NaN
| Num x => Returned (Num x)
| Timestamp ns => Returned (Num (inject_Z ns))
| Str s =>
    if String.eqb s "" then Returned NaN
    else if forallb numeric_char (list_ascii_of_string s)
    then match numeric_of_string s with
         | Some x => Returned (Num x)
         | None => Raised ValueError
         end
    else Raised ValueError
end.

(** [pd.to_numeric] on a column: the first value that does not convert
  raises. *)
Fixpoint to_numeric (numeric_of_string : string -> option Q)
  (col : list cell) : result (list cell) :=
match col with
| [] => Returned []
| c :: rest =>
    c' ← to_numeric_cell numeric_of_string c;
    rest' ← to_numeric numeric_of_string rest;
    Returned (c' :: rest')
end.

End Pandas.

(** ** The HTTP upstream as [requests] shows it *)
Module Requests.

(** The request body posted to [spending_by_transaction]. *)
Record payload : Type := {
  award_type_codes : list string;
  time_period : string * string;       (* start_date, end_date *)
  agencies : list (string * string * string);  (* type, tier, name *)
  object_class : option (list string);
  fields : list string;
  page : Z;
  limit : Z;
  sort : string;
  order : string
}.

Definition set_page (p : payload) (n : Z) : payload :=
  {| award_type_codes := award_type_codes p;
     time_period := time_period p;
     agencies := agencies p;
     object_class := object_class p;
     fields := fields p;
     page := n;
     limit := limit p;
     sort := sort p;
     order := order p |}.

(** What [response.json()] gives. A body with a 'results' key holds a
    list of records there, as the API documents it. *)
Inductive body : Type :=
| NotJSON                               (* json() raises JSONDecodeError,
                                           a RequestException *)
| NotObject                             (* JSON, but not an object: null,
                                           a list, a string, a number *)
| NoResults                             (* an object without 'results' *)
| Results (rs : list Pandas.record).    (* 'results' is this list *)

(** What [requests.post] gives. *)
Inductive response : Type :=
| RequestException                      (* the call raised *)
| Response (status_code : Z) (json : body).

(** The upstream: a response for every request. Within one run no
    request is repeated, so a function of the request loses nothing. *)
Definition upstream : Type := payload -> response.

End Requests.

(** Matching on a value while keeping the equation that names it. *)
Definition inspect {A : Type} (x : A) : { y : A | x = y } := exist _ x eq_refl.

(** [enumerate(xs, start)] *)
Fixpoint enumerate {A} (start : nat) (xs : list A) : list (nat * A) :=
  match xs with
  | [] => []
  | x :: rest => (start, x) :: enumerate (S start) rest
  end.

(** What a run has done to the outside: the requests posted, oldest first,
    and the tables written with [to_csv], oldest first, under their paths. *)
Record world : Type := {
  requests : list Requests.payload;
  files : list (string * Pandas.DataFrame)
}.

Definition post (p : Requests.payload) (w : world) : world :=
  {| requests := requests w ++ [p]; files := files w |}.

Definition to_csv (path : string) (df : Pandas.DataFrame) (w : world) : world :=
  {| requests := requests w; files := files w ++ [(path, df)] |}.

(** ** usaspending_doi.py *)
Module Doi.
Import Pandas Requests.

(** *** [get_week_ranges] *)

(** The [while current < end] loop of the generator, on the parsed
    datetimes. An iteration computes [current + timedelta(days=6)] before
    taking the [min] with [end], yields [(current, week_end)], and then
    computes [week_end + timedelta(days=1)]. The two [strftime] calls of the
    [yield] are applied by [get_week_ranges] below to each yielded pair:
    they are pure and cannot fail. *)
Equations? week_loop (current end_ : Z) : generated (Z * Z)
  by wf (Z.to_nat (end_ - current)) lt :=
week_loop current end_ with Z_lt_dec current end_ := {
  | right _ => Generated [] None
  | left Hlt with inspect (Datetime.add_days current 6) := {
    | exist _ (Raised e) _ => Generated [] (Some e)
    | exist _ (Returned plus6) Hplus6
        with inspect (Datetime.add_days (Z.min plus6 end_) 1) := {
      | exist _ (Raised e) _ =>
          Generated [(current, Z.min plus6 end_)] (Some e)
      | exist _ (Returned next) Hnext =>
          gen_yield (current, Z.min plus6 end_) (week_loop next end_)
      }
    }
  }.
Proof.
  unfold Datetime.add_days in *.
  repeat case_match; simplify_eq. lia.
Qed.

Definition format_range (r : Z * Z) : string * string :=
  (Datetime.strftime r.1, Datetime.strftime r.2).

(** [get_week_ranges(start_date, end_date)]: both dates are parsed first
    (a ValueError ends the generator before any yield). *)
Definition get_week_ranges (start_date end_date : string)
  : generated (string * string) :=
  match Datetime.strptime start_date with
  | None => Generated [] (Some ValueError)
  | Some start =>
      match Datetime.strptime end_date with
      | None => Generated [] (Some ValueError)
      | Some end_ =>
          let g := week_loop start end_ in
          Generated (format_range <$> yielded g) (stopped g)
      end
  end.

(** *** [fetch_award_history] *)

Definition award_type_codes : list string :=
  ["A"; "B"; "C"; "D";          (* Contracts *)
   "02"; "03"; "04"; "05";      (* Grants *)
   "06"; "10";                  (* Direct Payments *)
   "07"; "08";                  (* Loans *)
   "09"; "11"].                 (* Other *)

Definition payload (start_date end_date : string) : Requests.payload :=
  {| Requests.award_type_codes := award_type_codes;
     time_period := (start_date, end_date);
     agencies := [("awarding", "toptier", "Department of the Interior")];
     object_class := None;
     fields := ["Award ID"; "Mod"; "Recipient Name"; "Action Date";
                "Transaction Amount"; "Awarding Agency";
                "Awarding Sub Agency"; "Award Type"];
     page := 1;
     limit := 100;
     sort := "Action Date";
     order := "desc" |}.

(** The [while True] loop. [None] is a loop still running when the fuel is
    spent; otherwise the returned list, or the exception of
    [data['results']] that [except RequestException] does not catch (the
    KeyError of an object without that key, the TypeError of a body that is
    not an object), and the world after the requests. The prints are not
    modelled. *)
Fixpoint fetch_loop (fuel : nat) (up : upstream) (payload : Requests.payload)
    (page : Z) (all_results : list record) (w : world)
  : option (result (list record) * world) :=
  match fuel with
  | O => None
  | S fuel =>
      let payload := set_page payload page in
      let w := post payload w in
      match up payload with
      | RequestException => Some (Returned all_results, w)
      | Response status_code json =>
          if negb (status_code =? 200) then Some (Returned all_results, w)
          else
            match json with
            | NotJSON => Some (Returned all_results, w)
            | NotObject => Some (Raised TypeError, w)
            | NoResults => Some (Raised KeyError, w)
            | Results [] => Some (Returned all_results, w)
            | Results results =>
                let all_results := all_results ++ results in
                if Z.of_nat (length results) <? limit payload
                then Some (Returned all_results, w)
                else fetch_loop fuel up payload (page + 1) all_results w
            end
      end
  end.

Definition fetch_award_history (fuel : nat) (up : upstream)
    (start_date end_date : string) (w : world)
  : option (result (list record) * world) :=
  fetch_loop fuel up (payload start_date end_date) 1 [] w.

(** *** [process_results] and [main] *)
Section Processing.

(** [pd.to_datetime] on a column (it may raise), the parser
    [pd.to_numeric] applies to a string, and the format [f"${x:,.2f}"]. *)
Variable to_datetime : list cell -> result (list cell).
Variable numeric_of_string : string -> option Q.
Variable format_amount : Q -> string.

(** [lambda x: f"${x:,.2f}" if pd.notnull(x) else "$0.00"], applied to the
    numeric column. *)
Definition format_currency (x : cell) : cell :=
  match x with
  | Num a => Str (format_amount a)
  | _ => Str "$0.00"
  end.

Definition process_results (data : list record) : result DataFrame :=
  match data with
  | [] => Returned empty_frame
  | _ :: _ =>
      let df := from_records data in
      df ← (if has_column "Action Date" df
            then action_date ← get_column "Action Date" df;
                 action_date ← to_datetime action_date;
                 Returned (set_column "Action Date" action_date df)
            else Returned df);
      if has_column "Transaction Amount" df
      then amount ← get_column "Transaction Amount" df;
           amount ← to_numeric numeric_of_string amount;
           let df := set_column "Transaction Amount" amount df in
           amount ← get_column "Transaction Amount" df;
           Returned (set_column "Amount" (format_currency <$> amount) df)
      else Returned df
  end.

Definition start_date : string := "2023-10-01".
Definition end_date : string := "2024-09-30".
Definition output_dir : string := "output/fy2024".

(** [os.path.join(output_dir, f'doi_awards_week_{week_num}.csv')] *)
Definition week_filename (week_num : nat) : string :=
  output_dir +:+ "/doi_awards_week_" +:+ pretty week_num +:+ ".csv".

Definition complete_filename : string :=
  output_dir +:+ "/doi_awards_fy2024_complete.csv".

(** The [for week_num, (week_start, week_end) in enumerate(..., 1)] loop
    over the ranges the generator yields; [time.sleep] and the prints are
    not modelled. *)
Fixpoint process_weeks (fuel : nat) (up : upstream)
    (weeks : list (nat * (string * string)))
    (all_data : list DataFrame) (w : world)
  : option (result (list DataFrame) * world) :=
  match weeks with
  | [] => Some (Returned all_data, w)
  | (week_num, (week_start, week_end)) :: rest =>
      match fetch_award_history fuel up week_start week_end w with
      | None => None
      | Some (Raised e, w) => Some (Raised e, w)
      | Some (Returned [], w) => process_weeks fuel up rest all_data w
      | Some (Returned data, w) =>
          match process_results data with
          | Raised e => Some (Raised e, w)
          | Returned df =>
              if empty df then process_weeks fuel up rest all_data w
              else
                process_weeks fuel up rest (all_data ++ [df])
                              (to_csv (week_filename week_num) df w)
          end
      end
  end.

(** [main] up to the write of the complete file (the printed totals and
    monthly summary that follow are not modelled): [None] is a fetch
    still running when its fuel is spent, otherwise the exception that
    ended the run, if any, and the world it leaves. The first pass over
    the generator counts the weeks, so an exception of the generator ends
    the run before any request; the second pass yields the same ranges. *)
Definition main (fuel : nat) (up : upstream) (w : world)
  : option (option exn * world) :=
  match stopped (get_week_ranges start_date end_date) with
  | Some e => Some (Some e, w)
  | None =>
      let weeks := yielded (get_week_ranges start_date end_date) in
      match process_weeks fuel up (enumerate 1 weeks) [] w with
      | None => None
      | Some (Raised e, w) => Some (Some e, w)
      | Some (Returned [], w) => Some (None, w)
      | Some (Returned all_data, w) =>
          Some (None, to_csv complete_filename (concat all_data) w)
      end
  end.

End Processing.

(** *** Spending by award type *)

Definition award_type_map : gmap string string :=
  list_to_map
    [("A", "Contracts"); ("B", "Contracts"); ("C", "Contracts");
     ("D", "Contracts");
     ("02", "Grants"); ("03", "Grants"); ("04", "Grants"); ("05", "Grants");
     ("06", "Direct Payments"); ("10", "Direct Payments");
     ("07", "Loans"); ("08", "Loans");
     ("09", "Other"); ("11", "Other")].

(** The five award categories. *)
Definition award_categories : list string :=
  ["Contracts"; "Grants"; "Direct Payments"; "Loans"; "Other"].

(** [category_summary] of [main]: the 'Award Category' column is added to
    [final_df] and the amounts are summed and counted per category. *)
Definition category_summary (final_df : DataFrame)
  : result (list (string * (Q * nat))) :=
  award_type ← get_column "Award Type" final_df;
  let final_df :=
    set_column "Award Category" (map_dict award_type_map award_type)
               final_df in
  category ← get_column "Award Category" final_df;
  amount ← get_column "Transaction Amount" final_df;
  Returned (groupby_sum_count category amount).

End Doi.

(** ** usaspending_ees.py *)
Module Ees.
Import Pandas Requests.

Definition payload (start_date end_date : string) : Requests.payload :=
  {| award_type_codes :=
       ["A"; "B"; "C"; "D";          (* Contracts *)
        "02"; "03"; "04"; "05";      (* Grants *)
        "06"; "10";                  (* Direct Payments *)
        "07"; "08";                  (* Loans *)
        "09"; "11"];                 (* Other *)
     time_period := (start_date, end_date);
     agencies := [("awarding", "toptier", "Department of the Interior")];
     object_class := Some ["10"];    (* Personnel compensation and benefits *)
     fields := ["Action Date"; "Transaction Amount"; "Award ID";
                "Recipient Name"; "Awarding Agency"; "Awarding Sub Agency";
                "Award Type"];
     page := 1;
     limit := 100;
     sort := "Action Date";
     order := "desc" |}.

(** The [while True] loop; [data.get('results')] makes a body without
    'results' end the loop like an empty list, and raises the
    AttributeError of a body that is not an object, which
    [except RequestException] does not catch. [total_entries] is the count
    the progress lines print. *)
Fixpoint fetch_loop (fuel : nat) (up : upstream) (payload : Requests.payload)
    (page : Z) (all_results : list record) (total_entries : Z) (w : world)
  : option (result (list record) * world) :=
  match fuel with
  | O => None
  | S fuel =>
      let payload := set_page payload page in
      let w := post payload w in
      match up payload with
      | RequestException => Some (Returned all_results, w)
      | Response status_code json =>
          if negb (status_code =? 200) then Some (Returned all_results, w)
          else
            match json with
            | NotJSON => Some (Returned all_results, w)
            | NotObject => Some (Raised AttributeError, w)
            | NoResults => Some (Returned all_results, w)
            | Results [] => Some (Returned all_results, w)
            | Results results =>
                let all_results := all_results ++ results in
                let total_entries :=
                  total_entries + Z.of_nat (length results) in
                if Z.of_nat (length results) <? limit payload
                then Some (Returned all_results, w)
                else fetch_loop fuel up payload (page + 1) all_results
                                total_entries w
            end
      end
  end.

Definition fetch_personnel_spending (fuel : nat) (up : upstream)
    (start_date end_date : string) (w : world)
  : option (result (list record) * world) :=
  fetch_loop fuel up (payload start_date end_date) 1 [] 0 w.

Section Processing.

Variable to_datetime : list cell -> result (list cell).
Variable numeric_of_string : string -> option Q.
Variable format_amount : Q -> string.

(** [lambda x: f"${x:,.2f}" if pd.notnull(x) else "$0.00"] *)
Definition format_currency (x : cell) : cell :=
  match x with
  | Num a => Str (format_amount a)
  | _ => Str "$0.00"
  end.

Definition process_results (data : list record) : result DataFrame :=
  match data with
  | [] => Returned empty_frame
  | _ :: _ =>
      let df := from_records data in
      df ← (if has_column "Action Date" df
            then action_date ← get_column "Action Date" df;
                 action_date ← to_datetime action_date;
                 Returned (set_column "Action Date" action_date df)
            else Returned df);
      if has_column "Transaction Amount" df
      then amount ← get_column "Transaction Amount" df;
           amount ← to_numeric numeric_of_string amount;
           let df := set_column "Transaction Amount" amount df in
           amount ← get_column "Transaction Amount" df;
           Returned (set_column "Formatted Amount"
                                (format_currency <$> amount) df)
      else Returned df
  end.

Definition start_date : string := "2023-10-01".
Definition end_date : string := "2024-09-30".
Definition output_dir : string := "output/personnel".

(** [os.path.join(output_dir, f'doi_personnel_spending_fy2024.csv')] *)
Definition filename : string :=
  output_dir +:+ "/doi_personnel_spending_fy2024.csv".

(** The summaries printed after the write, as far as they can raise: with
    a 'Transaction Amount' column, [df.groupby('Awarding Sub Agency')] and
    then [df.groupby('Award Type')] each need their key column. *)
Definition print_summaries (df : DataFrame) : result unit :=
  if has_column "Transaction Amount" df
  then _ ← get_column "Awarding Sub Agency" df;
       _ ← get_column "Award Type" df;
       Returned ()
  else Returned ().

(** [main]: [None] is a fetch still running when its fuel is spent,
    otherwise the exception that ended the run, if any, and the world it
    leaves. *)
Definition main (fuel : nat) (up : upstream) (w : world)
  : option (option exn * world) :=
  match fetch_personnel_spending fuel up start_date end_date w with
  | None => None
  | Some (Raised e, w) => Some (Some e, w)
  | Some (Returned results, w) =>
      match process_results results with
      | Raised e => Some (Some e, w)
      | Returned df =>
          if empty df then Some (None, w)
          else
            let w := to_csv filename df w in
            match print_summaries df with
            | Raised e => Some (Some e, w)
            | Returned _ => Some (None, w)
            end
      end
  end.

End Processing.

End Ees.

(** * Vocabulary of the properties *)

(** ** Date ranges *)

(** The calendar days of an inclusive range. *)
Definition range_days (r : Z * Z) : list Z := seqZ r.1 (r.2 - r.1 + 1).

(** The days of a list of ranges, in the order the ranges are listed. *)
Definition covered_days (rs : list (Z * Z)) : list Z :=
  List.concat (range_days <$> rs).

(** Whether the day written [day] lies in one of the ranges written [rs]
    (all three read back with [strptime]). *)
Definition day_in_ranges (day : string) (rs : list (string * string)) : bool :=
  match Datetime.strptime day with
  | None => false
  | Some d =>
      existsb (fun r =>
                 match Datetime.strptime r.1, Datetime.strptime r.2 with
                 | Some a, Some b => (a <=? d) && (d <=? b)
                 | _, _ => false
                 end) rs
  end.

(** Each range starts the day after the previous one ends, the first one
    at [start]. *)
Fixpoint contiguous_from (start : Z) (rs : list (Z * Z)) : Prop :=
  match rs with
  | [] => True
  | r :: rest => r.1 = start /\ contiguous_from (r.2 + 1) rest
  end.

(** The number of days the yielded ranges cover, counted from [current]:
    the day [end] itself is left out when [end - current] is a multiple of
    seven. *)
Definition covered_length (current end_ : Z) : Z :=
  if (end_ - current) mod 7 =? 0 then end_ - current else end_ - current + 1.

(** ** Requests and pages *)

Import Datetime Pandas Requests.

(** The requests for the [n] pages from [first] on, in order. *)
Definition page_requests (p : payload) (first n : Z) : list payload :=
  set_page p <$> seqZ first n.

(** The world after more requests. *)
Definition posted (reqs : list payload) (w : world) : world :=
  {| requests := requests w ++ reqs; files := files w |}.

(** The upstream answers the request for page [i] with status 200 and the
    result list [rs]. *)
Definition serves (up : upstream) (p : payload) (i : Z) (rs : list record)
  : Prop :=
  up (set_page p i) = Response 200 (Results rs).

(** A request that raised, or a response whose status is not 200. *)
Definition failed (r : response) : Prop :=
  match r with
  | RequestException => True
  | Response status_code _ => status_code <> 200
  end.

(** The records a 200 response for page [i] carries. *)
Definition page_results (up : upstream) (p : payload) (i : Z) : list record :=
  match up (set_page p i) with
  | Response status_code (Results rs) =>
      if status_code =? 200 then rs else []
  | _ => []
  end.

(** The upstream serves [N] pages of exactly 100 records and then one page
    of [K] records. *)
Definition serves_pages (up : upstream) (p : payload) (N K : nat)
    (pages : Z -> list record) : Prop :=
  (forall i, 1 <= i <= Z.of_nat N ->
             serves up p i (pages i) /\ length (pages i) = 100%nat)
  /\ serves up p (Z.of_nat N + 1) (pages (Z.of_nat N + 1))
  /\ length (pages (Z.of_nat N + 1)) = K.

(** ** Runs of [main] *)

Definition world0 : world := {| requests := []; files := [] |}.

(** The per-chunk files among the files written: all but the complete
    file. *)
Definition chunk_files (w : world) : list (string * DataFrame) :=
  List.filter (fun f => negb (String.eqb f.1 Doi.complete_filename)) (files w).

Section Chunks.

Variable to_datetime : list cell -> result (list cell).
Variable numeric_of_string : string -> option Q.
Variable format_amount : Q -> string.

(** What the fetch and the processing of one chunk give: the table written
    for the chunk, [None] when the fetch brought no record or the table is
    empty. *)
Definition week_table (fuel : nat) (up : upstream) (week : string * string)
  : option (result (option DataFrame)) :=
  match Doi.fetch_award_history fuel up week.1 week.2 world0 with
  | None => None
  | Some (Raised e, _) => Some (Raised e)
  | Some (Returned [], _) => Some (Returned None)
  | Some (Returned data, _) =>
      match Doi.process_results to_datetime numeric_of_string format_amount
                                data with
      | Raised e => Some (Raised e)
      | Returned df => Some (Returned (if empty df then None else Some df))
      end
  end.

(** The chunk completes: its fetch ends within the fuel and neither the
    fetch nor the processing raises. *)
Definition week_completes (fuel : nat) (up : upstream)
    (week : string * string) : bool :=
  match week_table fuel up week with
  | Some (Returned _) => true
  | _ => false
  end.

Definition week_has_table (fuel : nat) (up : upstream)
    (week : string * string) : bool :=
  match week_table fuel up week with
  | Some (Returned (Some _)) => true
  | _ => false
  end.

(** The per-chunk files of a run: one for each numbered chunk that has a
    table, under the name that carries the chunk's number. *)
Definition week_files (fuel : nat) (up : upstream)
    (weeks : list (nat * (string * string))) : list (string * DataFrame) :=
  omap (fun nw =>
          match week_table fuel up nw.2 with
          | Some (Returned (Some df)) => Some (Doi.week_filename nw.1, df)
          | _ => None
          end) weeks.

(** The complete file: written when some chunk has a table. *)
Definition complete_file (weekly : list (string * DataFrame))
  : list (string * DataFrame) :=
  match weekly with
  | [] => []
  | _ :: _ => [(Doi.complete_filename, concat (weekly.*2))]
  end.

End Chunks.

(** ** Sample upstreams and runs *)

Definition sample_record (award_type : string) (amount : Q) : record :=
  [("Award Type", Str award_type); ("Transaction Amount", Num amount)].

Definition sample_page (n : nat) : list record :=
  replicate n (sample_record "A" 1).

(** Answers by page number: one page of 100 records, then a page of 7. *)
Definition mock_two_pages : upstream :=
  fun p =>
    if page p =? 1 then Response 200 (Results (sample_page 100))
    else if page p =? 2 then Response 200 (Results (sample_page 7))
    else Response 200 (Results []).

Definition mock_two_pages_content (i : Z) : list record :=
  if i =? 1 then sample_page 100 else sample_page 7.

(** One page of 100 records, then status 500. *)
Definition mock_error_on_page_2 : upstream :=
  fun p =>
    if page p =? 1 then Response 200 (Results (sample_page 100))
    else Response 500 NotJSON.

(** No records for any request. *)
Definition mock_empty : upstream := fun _ => Response 200 (Results []).

(** Two records for the week that starts on 2023-10-08, none for the other
    weeks. *)
Definition mock_one_week : upstream :=
  fun p =>
    if String.eqb (time_period p).1 "2023-10-08"
    then Response 200 (Results [sample_record "A" 100; sample_record "02" 50])
    else Response 200 (Results []).

Definition sample_table : DataFrame :=
  {| nrows := 2;
     columns := [("Award Type", [Str "A"; Str "02"]);
                 ("Transaction Amount", [Num 100; Num 50]);
                 ("Amount", [Str "$100.00"; Str "$50.00"])] |}.

(** Stand-ins for the pandas conversions and the amount format. *)
Definition keep_column (col : list cell) : result (list cell) := Returned col.
Definition no_number (s : string) : option Q := None.
Definition whole_dollars (x : Q) : string :=
  "$" +:+ pretty (Qnum x / Z.pos (Qden x)) +:+ ".00".

(** ** Dates and week ranges *)

(** The first day of the year 1000: from this day on [%Y] is written with
    four digits. *)
Definition YEAR_1000 : Z := ymd2ord 1000 1 1.

(** The month and day of the [n]-th day (from 0) of a year. *)
Definition month_day (leapyear : bool) (n : Z) : Z * Z :=
  let month := Z.shiftr (n + 50) 5 in
  let preceding :=
    DAYS_BEFORE_MONTH month + (if (2 <? month) && leapyear then 1 else 0) in
  if n <? preceding then
    let month := month - 1 in
    let preceding :=
      preceding - (DAYS_IN_MONTH month
                   + (if (month =? 2) && leapyear then 1 else 0)) in
    (month, n - preceding + 1)
  else (month, n - preceding + 1).

Definition month_day_ok (leapyear : bool) (n : Z) : bool :=
  let '(m, d) := month_day leapyear n in
  (1 <=? m) && (m <=? 12) && (1 <=? d)
  && (d <=? (if (m =? 2) && leapyear then 29 else DAYS_IN_MONTH m))
  && (DAYS_BEFORE_MONTH m + (if (2 <? m) && leapyear then 1 else 0) + d =? n + 1).

Definition month_day_text_ok (m d : Z) : bool :=
  bool_decide (split_dash (pad2 m +:+ "-" +:+ pad2 d) = Some (pad2 m, pad2 d))
  && bool_decide (parse_month (pad2 m) = Some m)
  && bool_decide (parse_day (pad2 d) = Some d).

(** Reading yielded pairs back with [strptime]. *)
Fixpoint parse_ranges (rs : list (string * string)) : option (list (Z * Z)) :=
  match rs with
  | [] => Some []
  | r :: rest =>
      a ← strptime r.1; b ← strptime r.2;
      rest' ← parse_ranges rest; Some ((a, b) :: rest')
  end.

(** Every range but the last spans exactly seven days. *)
Fixpoint full_weeks_but_last (rs : list (Z * Z)) : Prop :=
  match rs with
  | [] => True
  | r :: rest =>
      match rest with
      | [] => True
      | _ :: _ => r.2 = r.1 + 6 /\ full_weeks_but_last rest
      end
  end.

(** ** Pages of the fetchers *)

(** An answer without records that is no error to the personnel fetch: the
    request raised, the status is not 200, or the body is not JSON, is an
    object without 'results', or holds an empty result list. *)
Definition no_records (r : response) : bool :=
  match r with
  | RequestException => true
  | Response status_code json =>
      negb (status_code =? 200)
      || match json with
         | NotJSON | NoResults | Results [] => true
         | NotObject | Results (_ :: _) => false
         end
  end.

(** Every page is served with at least 100 records. *)
Definition endless (up : upstream) (p : payload) : Prop :=
  forall i, 1 <= i ->
            exists rs, serves up p i rs /\ (100 <= length rs)%nat.

(** The upstream serves the pages 1 .. n with at least 100 records each. *)
Definition serves_full_pages (up : upstream) (p : payload) (n : nat)
    (pages : Z -> list record) : Prop :=
  forall i, 1 <= i <= Z.of_nat n ->
            serves up p i (pages i) /\ (100 <= length (pages i))%nat.

(** ** Tables *)





(** The column labels [pd.DataFrame(data)] gives a list of records. *)
Definition record_labels (data : list record) : list string :=
  fold_left (fun acc r => add_labels acc (r.*1)) data [].

(** ** Runs of the award script *)

(** The requests the fetch of one chunk posts. *)
Definition week_requests (fuel : nat) (up : upstream)
    (week : string * string) : list payload :=
  match Doi.fetch_award_history fuel up week.1 week.2 world0 with
  | Some (_, w1) => requests w1
  | None => []
  end.

(** ** The category summary *)

(** The strict order [groupby] sorts the keys by. *)
Definition string_lt (a b : string) : Prop := String.ltb a b = true.

(** The row has a category and a non-null amount. *)
Definition counted (mapping : gmap string string) (row : cell * cell)
  : bool :=
  match row.1, row.2 with
  | Str code, NaN => false
  | Str code, _ => bool_decide (is_Some (mapping !! code))
  | _, _ => false
  end.

(** The row has a category (its amount may be null). *)
Definition categorized (mapping : gmap string string) (row : cell * cell)
  : bool :=
  match row.1 with
  | Str code => bool_decide (is_Some (mapping !! code))
  | _ => false
  end.

Definition amount_of (c : cell) : Q :=
  match c with Num x => x | _ => 0%Q end.

Definition total_count (summary : list (string * (Q * nat))) : nat :=
  foldr (fun row acc => (row.2.2 + acc)%nat) 0%nat summary.

Definition total_sum (summary : list (string * (Q * nat))) : Q :=
  foldr (fun row acc => (row.2.1 + acc)%Q) 0%Q summary.

(** The category [map] gives a value of the 'Award Type' column. *)
Definition category_of (mapping : gmap string string) (c : cell)
  : option string :=
  match c with
  | Str code => mapping !! code
  | _ => None
  end.

Definition total_amount (rows : list (cell * cell)) : Q :=
  foldr (fun row acc => (amount_of row.2 + acc)%Q) 0%Q rows.

(** A whole number, or a missing amount. *)
Definition whole_amount (c : cell) : bool :=
  match c with
  | NaN => true
  | Num x => (Z.pos (Qden (Qred x)) =? 1)
  | _ => false
  end.

(** The sum of the magnitudes of the amounts of a column. *)
Definition total_magnitude (amounts : list cell) : Z :=
  foldr (fun c acc => Z.abs (Qnum (Qred (amount_of c))) + acc) 0 amounts.

(** ** More sample upstreams and records *)

(** A page of 100 records for every request. *)
Definition mock_endless : upstream :=
  fun _ => Response 200 (Results (sample_page 100)).

(** One page of 100 records, then a 200 answer without 'results'. *)
Definition mock_missing_results_on_page_2 : upstream :=
  fun p =>
    if page p =? 1 then Response 200 (Results (sample_page 100))
    else Response 200 NoResults.

(** A 200 answer without 'results' for the week that starts on 2023-10-08,
    no records for the other weeks. *)
Definition mock_bad_week : upstream :=
  fun p =>
    if String.eqb (time_period p).1 "2023-10-08"
    then Response 200 NoResults
    else Response 200 (Results []).

(** One page of 100 records, then a 200 answer that is a JSON list. *)
Definition mock_list_on_page_2 : upstream :=
  fun p =>
    if page p =? 1 then Response 200 (Results (sample_page 100))
    else Response 200 NotObject.



(** The table of the personnel script for a page of 100 sample records. *)
Definition sample_personnel_table : DataFrame :=
  {| nrows := 100;
     columns := [("Award Type", replicate 100 (Str "A"));
                 ("Transaction Amount", replicate 100 (Num 1));
                 ("Formatted Amount", replicate 100 (Str "$1.00"))] |}.

(** * Properties *)

(** ** The date-range splitter *)

Lemma week_loop_unfold current end_ :
  Doi.week_loop current end_ =
  if decide (current < end_) then
    match add_days current 6 with
    | Raised e => Generated [] (Some e)
    | Returned plus6 =>
        match add_days (Z.min plus6 end_) 1 with
        | Raised e => Generated [(current, Z.min plus6 end_)] (Some e)
        | Returned next =>
            gen_yield (current, Z.min plus6 end_) (Doi.week_loop next end_)
        end
    end
  else Generated [] None.
Proof.
  simp week_loop.
  destruct (Z_lt_dec current end_) as [Hlt|Hge]; simpl;
    destruct (decide (current < end_)); try lia; [|reflexivity].
  destruct (add_days current 6) as [plus6|e]; [|reflexivity].
  destruct (add_days (Z.min plus6 end_) 1); reflexivity.
Qed.

Lemma add_days_in_range d n :
  MINORDINAL <= d + n <= MAXORDINAL -> add_days d n = Returned (d + n).
Proof.
  intros H. unfold add_days. cbn zeta.
  destruct (MINORDINAL <=? d + n) eqn:E1, (d + n <=? MAXORDINAL) eqn:E2;
    simpl; try reflexivity; lia.
Qed.

Lemma add_days_returned d n r : add_days d n = Returned r -> r = d + n.
Proof.
  unfold add_days. cbn zeta. case_match; intros; simplify_eq. reflexivity.
Qed.

Lemma week_loop_done current end_ :
  end_ <= current -> Doi.week_loop current end_ = Generated [] None.
Proof.
  intros H. rewrite week_loop_unfold. destruct (decide (current < end_)); [lia|done].
Qed.

(** The date model on the fiscal year of [main]: every day from 2023-10-01
    to 2024-09-30 is written by [strftime] with four, two and two digits
    and read back by [strptime]. *)
Lemma strptime_strftime_fy2024 :
  strptime Doi.start_date = Some 738794
  /\ strptime Doi.end_date = Some 739159
  /\ forallb (fun d => bool_decide (strptime (strftime d) = Some d)
                       && (String.length (strftime d) =? 10)%nat)
             (seqZ 738794 366) = true.
Proof. vm_compute. done. Qed.

(** Induction along the iterations of the loop: past [end] there is
    nothing to do, and before it the next [current] is closer to [end]. *)
Lemma week_loop_induction (end_ : Z) (P : Z -> Prop) :
  (forall current, end_ <= current -> P current) ->
  (forall current,
      current < end_ -> (forall next, current < next -> P next) -> P current) ->
  forall current, P current.
Proof.
  intros base step current.
  remember (Z.to_nat (end_ - current)) as n eqn:Hn.
  revert current Hn.
  induction n as [n IH] using lt_wf_ind. intros current ->.
  destruct (decide (current < end_)) as [Hlt|Hge].
  - apply step; [done|]. intros next Hnext.
    destruct (decide (next < end_)).
    + apply (IH (Z.to_nat (end_ - next))); [lia|done].
    + apply base. lia.
  - apply base. lia.
Qed.

(** Every yielded range starts no earlier than [current], is non-empty,
    spans at most seven days and ends no later than [end]. *)
Lemma week_loop_bounds end_ current :
  Forall (fun r => current <= r.1 /\ r.1 <= r.2 /\ r.2 <= r.1 + 6 /\ r.2 <= end_)
         (yielded (Doi.week_loop current end_)).
Proof.
  revert current. apply (week_loop_induction end_).
  - intros current Hge. rewrite week_loop_done by done. constructor.
  - intros current Hlt IH. rewrite week_loop_unfold.
    destruct (decide (current < end_)); [|lia].
    destruct (add_days current 6) as [plus6|] eqn:H6; [|constructor].
    apply add_days_returned in H6. subst plus6.
    destruct (add_days _ 1) as [next|] eqn:H1.
    + apply add_days_returned in H1. simpl. constructor; [simpl; lia|].
      eapply Forall_impl; [apply IH; lia|]. simpl. intros r. lia.
    + repeat constructor; simpl; lia.
Qed.

Lemma week_loop_contiguous end_ current :
  contiguous_from current (yielded (Doi.week_loop current end_)).
Proof.
  revert current. apply (week_loop_induction end_).
  - intros current Hge. rewrite week_loop_done by done. exact I.
  - intros current Hlt IH. rewrite week_loop_unfold.
    destruct (decide (current < end_)); [|lia].
    destruct (add_days current 6) as [plus6|] eqn:H6; [|exact I].
    apply add_days_returned in H6. subst plus6.
    destruct (add_days _ 1) as [next|] eqn:H1.
    + apply add_days_returned in H1. simpl. split; [done|].
      subst next. apply IH. lia.
    + simpl. done.
Qed.

Lemma week_loop_covered end_ current :
  MINORDINAL <= current -> end_ + 5 <= MAXORDINAL ->
  stopped (Doi.week_loop current end_) = None
  /\ covered_days (yielded (Doi.week_loop current end_))
     = seqZ current (covered_length current end_).
Proof.
  intros Hmin Hmax. revert Hmin. pattern current. revert current.
  apply (week_loop_induction end_); cbv beta.
  - intros current Hge _. rewrite week_loop_done by done. split; [done|].
    unfold covered_length. rewrite seqZ_nil; [done|].
    destruct (_ =? 0) eqn:E; [lia|].
    assert (end_ - current <> 0) by (intros Heq; rewrite Heq in E; done). lia.
  - intros current Hlt IH Hmin. rewrite week_loop_unfold.
    destruct (decide (current < end_)); [|lia].
    unfold MINORDINAL, MAXORDINAL in *.
    rewrite add_days_in_range by (unfold MINORDINAL, MAXORDINAL; lia).
    rewrite add_days_in_range by (unfold MINORDINAL, MAXORDINAL; lia).
    destruct (IH ((current + 6) `min` end_ + 1)) as [IH1 IH2]; [lia..|].
    simpl. split; [done|].
    unfold covered_days in *. rewrite fmap_cons, concat_cons, IH2.
    unfold range_days, covered_length. simpl.
    destruct (decide (current + 6 < end_)) as [Hfull|Hlast].
    + rewrite Z.min_l by lia.
      replace (end_ - (current + 6 + 1)) with (end_ - current + (-1) * 7) by lia.
      rewrite Z.mod_add by lia.
      replace (current + 6 - current + 1) with 7 by lia.
      replace (current + 6 + 1) with (current + 7) by lia.
      destruct (_ =? 0); rewrite <- seqZ_app by lia; f_equal; lia.
    + rewrite Z.min_r by lia.
      replace (end_ - (end_ + 1)) with (-1) by lia. simpl.
      rewrite (seqZ_nil _ (-1 + 1)) by lia. rewrite app_nil_r.
      destruct (_ =? 0) eqn:E; [|done].
      apply Z.eqb_eq in E. apply Z.mod_divide in E; [|lia].
      destruct E as [k Hk]. lia.
Qed.

(** The end day is left out exactly when [end - start] is a multiple of
    seven days. *)
Lemma week_loop_omits_end start end_ :
  MINORDINAL <= start <= end_ -> end_ + 5 <= MAXORDINAL ->
  (end_ - start) mod 7 = 0 ->
  end_ ∉ covered_days (yielded (Doi.week_loop start end_)).
Proof.
  intros Hs He Hmod.
  destruct (week_loop_covered end_ start) as [_ ->]; [lia..|].
  unfold covered_length. rewrite Hmod. simpl.
  rewrite elem_of_seqZ. lia.
Qed.

Lemma week_loop_covers start end_ :
  MINORDINAL <= start <= end_ -> end_ + 5 <= MAXORDINAL ->
  (end_ - start) mod 7 <> 0 ->
  covered_days (yielded (Doi.week_loop start end_))
  = seqZ start (end_ - start + 1).
Proof.
  intros Hs He Hmod.
  destruct (week_loop_covered end_ start) as [_ ->]; [lia..|].
  unfold covered_length. destruct (_ =? 0) eqn:E; [|done].
  apply Z.eqb_eq in E. done.
Qed.

(** C6: splitting 2023-10-01..2023-10-14 yields exactly the two ranges
    (2023-10-01, 2023-10-07) and (2023-10-08, 2023-10-14), in that order,
    and the generator then stops normally. *)
Theorem get_week_ranges_two_weeks :
  Doi.get_week_ranges "2023-10-01" "2023-10-14"
  = Generated [("2023-10-01", "2023-10-07"); ("2023-10-08", "2023-10-14")]
              None.
Proof. vm_compute. reflexivity. Qed.

(** C1: on 2023-10-01..2023-10-08 the generator yields the single range
    (2023-10-01, 2023-10-07) and stops: the day 2023-10-08 of the requested
    interval lies in no yielded range. *)
Theorem get_week_ranges_omits_end_day :
  Doi.get_week_ranges "2023-10-01" "2023-10-08"
  = Generated [("2023-10-01", "2023-10-07")] None
  /\ day_in_ranges "2023-10-08"
       (yielded (Doi.get_week_ranges "2023-10-01" "2023-10-08")) = false
  /\ Doi.get_week_ranges "2023-10-01" "2023-10-01" = Generated [] None.
Proof. vm_compute. done. Qed.

(** C10: for dates that parse, with start after end, the generator yields
    nothing and stops normally. *)
Theorem get_week_ranges_reversed start_date end_date start end_ :
  strptime start_date = Some start ->
  strptime end_date = Some end_ ->
  end_ < start ->
  Doi.get_week_ranges start_date end_date = Generated [] None.
Proof.
  intros Hs He Hlt. unfold Doi.get_week_ranges. rewrite Hs, He.
  rewrite week_loop_done by lia. reflexivity.
Qed.

Lemma get_week_ranges_reversed_witness :
  strptime "2023-10-14" = Some 738807
  /\ strptime "2023-10-01" = Some 738794
  /\ 738794 < 738807
  /\ Doi.get_week_ranges "2023-10-14" "2023-10-01" = Generated [] None.
Proof.
  split; [reflexivity|]. split; [reflexivity|]. split; [lia|].
  apply (get_week_ranges_reversed "2023-10-14" "2023-10-01" 738807 738794);
    [reflexivity | reflexivity | lia].
Defined.

(** ** The paginated fetchers *)

Lemma set_page_set_page p i j : set_page (set_page p i) j = set_page p j.
Proof. reflexivity. Qed.

Lemma set_page_inj p i j : set_page p i = set_page p j -> i = j.
Proof. intros H. apply (f_equal page) in H. exact H. Qed.

Lemma posted_nil w : posted [] w = w.
Proof. destruct w. unfold posted. simpl. by rewrite app_nil_r. Qed.

Lemma posted_posted a b w : posted b (posted a w) = posted (a ++ b) w.
Proof. unfold posted. simpl. by rewrite app_assoc. Qed.

Lemma post_posted p w : post p w = posted [p] w.
Proof. reflexivity. Qed.

Lemma page_requests_cons p first n :
  0 < n ->
  page_requests p first n = set_page p first :: page_requests p (first + 1) (n - 1).
Proof.
  intros H. unfold page_requests. rewrite seqZ_cons by lia.
  rewrite fmap_cons. do 3 f_equal; lia.
Qed.

Lemma doi_fetch_loop_payload fuel up p i page acc w :
  Doi.fetch_loop fuel up (set_page p i) page acc w
  = Doi.fetch_loop fuel up p page acc w.
Proof.
  destruct fuel as [|fuel]; [done|].
  simpl. rewrite set_page_set_page.
  reflexivity.
Qed.

Lemma ees_fetch_loop_payload fuel up p i page acc total w :
  Ees.fetch_loop fuel up (set_page p i) page acc total w
  = Ees.fetch_loop fuel up p page acc total w.
Proof.
  destruct fuel as [|fuel]; [done|].
  simpl. rewrite set_page_set_page.
  reflexivity.
Qed.

(** One iteration on a page served in full: the records are appended and
    the loop goes on with the next page. *)
Lemma doi_fetch_loop_full_page fuel up p page acc w rs :
  serves up p page rs -> limit p <= Z.of_nat (length rs) -> rs <> [] ->
  Doi.fetch_loop (S fuel) up p page acc w
  = Doi.fetch_loop fuel up p (page + 1) (acc ++ rs) (post (set_page p page) w).
Proof.
  intros Hs Hlen Hne. simpl. rewrite Hs. simpl.
  destruct rs as [|r rs]; [done|].
  destruct (_ <? _) eqn:E; [apply Z.ltb_lt in E; lia|].
  apply doi_fetch_loop_payload.
Qed.

Lemma ees_fetch_loop_full_page fuel up p page acc total w rs :
  serves up p page rs -> limit p <= Z.of_nat (length rs) -> rs <> [] ->
  Ees.fetch_loop (S fuel) up p page acc total w
  = Ees.fetch_loop fuel up p (page + 1) (acc ++ rs)
                   (total + Z.of_nat (length rs)) (post (set_page p page) w).
Proof.
  intros Hs Hlen Hne. simpl. rewrite Hs. simpl.
  destruct rs as [|r rs]; [done|].
  destruct (_ <? _) eqn:E; [apply Z.ltb_lt in E; lia|].
  apply ees_fetch_loop_payload.
Qed.

(** [n] pages served in full from [page] on: the loop appends them all and
    stands at page [page + n]. *)
Lemma doi_fetch_loop_full_pages up p pages (n : nat) :
  forall fuel page acc w,
    (forall i, page <= i < page + Z.of_nat n ->
               serves up p i (pages i)
               /\ limit p <= Z.of_nat (length (pages i)) /\ pages i <> []) ->
    Doi.fetch_loop (n + fuel) up p page acc w
    = Doi.fetch_loop fuel up p (page + Z.of_nat n)
                     (acc ++ mjoin (pages <$> seqZ page (Z.of_nat n)))
                     (posted (page_requests p page (Z.of_nat n)) w).
Proof.
  induction n as [|n IH]; intros fuel page acc w H.
  - simpl. rewrite Z.add_0_r, app_nil_r, posted_nil. reflexivity.
  - destruct (H page) as (Hs & Hlen & Hne); [lia|].
    change (S n + fuel)%nat with (S (n + fuel)).
    rewrite (doi_fetch_loop_full_page _ _ _ _ _ _ _ Hs Hlen Hne).
    rewrite IH by (intros i Hi; apply H; lia).
    rewrite post_posted, posted_posted.
    rewrite (page_requests_cons p page (Z.of_nat (S n))) by lia.
    rewrite (seqZ_cons page (Z.of_nat (S n))) by lia.
    rewrite fmap_cons. simpl mjoin. rewrite <- app_assoc.
    replace (Z.pred (Z.of_nat (S n))) with (Z.of_nat n) by lia.
    replace (Z.of_nat (S n) - 1) with (Z.of_nat n) by lia.
    replace (Z.succ page) with (page + 1) by lia.
    f_equal. lia.
Qed.

Lemma ees_fetch_loop_full_pages up p pages (n : nat) :
  forall fuel page acc total w,
    (forall i, page <= i < page + Z.of_nat n ->
               serves up p i (pages i)
               /\ limit p <= Z.of_nat (length (pages i)) /\ pages i <> []) ->
    exists total',
      Ees.fetch_loop (n + fuel) up p page acc total w
      = Ees.fetch_loop fuel up p (page + Z.of_nat n)
                       (acc ++ mjoin (pages <$> seqZ page (Z.of_nat n)))
                       total'
                       (posted (page_requests p page (Z.of_nat n)) w).
Proof.
  induction n as [|n IH]; intros fuel page acc total w H.
  - exists total. simpl. rewrite Z.add_0_r, app_nil_r, posted_nil. reflexivity.
  - destruct (H page) as (Hs & Hlen & Hne); [lia|].
    change (S n + fuel)%nat with (S (n + fuel)).
    rewrite (ees_fetch_loop_full_page _ _ _ _ _ _ _ _ Hs Hlen Hne).
    edestruct (IH fuel (page + 1)) as [total' ->];
      [intros i Hi; apply H; lia|].
    exists total'.
    rewrite post_posted, posted_posted.
    rewrite (page_requests_cons p page (Z.of_nat (S n))) by lia.
    rewrite (seqZ_cons page (Z.of_nat (S n))) by lia.
    rewrite fmap_cons. simpl mjoin. rewrite <- app_assoc.
    replace (Z.pred (Z.of_nat (S n))) with (Z.of_nat n) by lia.
    replace (Z.of_nat (S n) - 1) with (Z.of_nat n) by lia.
    replace (Z.succ page) with (page + 1) by lia.
    f_equal. lia.
Qed.

Lemma elem_of_page_requests p first n q :
  q ∈ page_requests p first n -> first <= page q < first + n.
Proof.
  unfold page_requests. rewrite list_elem_of_fmap.
  intros (i & -> & Hi). apply elem_of_seqZ in Hi. simpl. lia.
Qed.

(** One iteration on a short, non-empty page: the records are appended and
    the loop ends. *)
Lemma doi_fetch_loop_short_page fuel up p page acc w rs :
  serves up p page rs -> Z.of_nat (length rs) < limit p -> rs <> [] ->
  Doi.fetch_loop (S fuel) up p page acc w
  = Some (Returned (acc ++ rs), post (set_page p page) w).
Proof.
  intros Hs Hlen Hne. simpl. rewrite Hs. simpl.
  destruct rs as [|r rs]; [done|].
  destruct (_ <? _) eqn:E; [done|]. apply Z.ltb_ge in E. lia.
Qed.

Lemma ees_fetch_loop_short_page fuel up p page acc total w rs :
  serves up p page rs -> Z.of_nat (length rs) < limit p -> rs <> [] ->
  Ees.fetch_loop (S fuel) up p page acc total w
  = Some (Returned (acc ++ rs), post (set_page p page) w).
Proof.
  intros Hs Hlen Hne. simpl. rewrite Hs. simpl.
  destruct rs as [|r rs]; [done|].
  destruct (_ <? _) eqn:E; [done|]. apply Z.ltb_ge in E. lia.
Qed.

Lemma seqZ_snoc m n : 0 <= n -> seqZ m (n + 1) = seqZ m n ++ [m + n].
Proof.
  intros H. rewrite seqZ_app by lia.
  rewrite (seqZ_cons (m + n) 1) by lia.
  rewrite (seqZ_nil _ (Z.pred 1)) by lia. reflexivity.
Qed.

Lemma length_mjoin_pages {A} (pages : Z -> list A) (c : nat) (n : nat) first :
  (forall i, first <= i < first + Z.of_nat n -> length (pages i) = c) ->
  length (mjoin (pages <$> seqZ first (Z.of_nat n))) = (n * c)%nat.
Proof.
  revert first. induction n as [|n IH]; intros first H; [done|].
  rewrite seqZ_cons by lia. rewrite fmap_cons. simpl mjoin.
  rewrite length_app, H by lia.
  replace (Z.pred (Z.of_nat (S n))) with (Z.of_nat n) by lia.
  rewrite IH by (intros i Hi; apply H; lia). simpl. lia.
Qed.

Lemma length_served_pages (pages : Z -> list record) (N K : nat) :
  (forall i, 1 <= i <= Z.of_nat N -> length (pages i) = 100%nat) ->
  length (pages (Z.of_nat N + 1)) = K ->
  length (mjoin (pages <$> seqZ 1 (Z.of_nat N + 1))) = (100 * N + K)%nat.
Proof.
  intros Hfull Hlast.
  rewrite seqZ_snoc by lia. rewrite fmap_app, join_app, length_app.
  rewrite (length_mjoin_pages pages 100) by (intros i Hi; apply Hfull; lia).
  simpl. rewrite app_nil_r.
  replace (1 + Z.of_nat N) with (Z.of_nat N + 1) by lia. lia.
Qed.

(** C2: [N] pages of exactly 100 records followed by a page of [K] records,
    0 < K < 100: each fetcher returns the pages concatenated, 100*N + K
    records, after requesting exactly the pages 1 .. N+1, so page N+2 is
    not requested. *)
Theorem fetchers_stop_after_short_page
    up start_date end_date (N K : nat) pages fuel w :
  (0 < K < 100)%nat -> (N < fuel)%nat ->
  (serves_pages up (Doi.payload start_date end_date) N K pages ->
   let p := Doi.payload start_date end_date in
   let all_results := mjoin (pages <$> seqZ 1 (Z.of_nat N + 1)) in
   Doi.fetch_award_history fuel up start_date end_date w
   = Some (Returned all_results,
           posted (page_requests p 1 (Z.of_nat N + 1)) w)
   /\ length all_results = (100 * N + K)%nat
   /\ set_page p (Z.of_nat N + 2) ∉ page_requests p 1 (Z.of_nat N + 1))
  /\
  (serves_pages up (Ees.payload start_date end_date) N K pages ->
   let p := Ees.payload start_date end_date in
   let all_results := mjoin (pages <$> seqZ 1 (Z.of_nat N + 1)) in
   Ees.fetch_personnel_spending fuel up start_date end_date w
   = Some (Returned all_results,
           posted (page_requests p 1 (Z.of_nat N + 1)) w)
   /\ length all_results = (100 * N + K)%nat
   /\ set_page p (Z.of_nat N + 2) ∉ page_requests p 1 (Z.of_nat N + 1)).
Proof.
  intros HK Hfuel.
  destruct (Nat.le_exists_sub (S N) fuel) as (rest & -> & _); [lia|].
  replace (rest + S N)%nat with (N + S rest)%nat by lia.
  split; intros (Hfull & Hlast & HlenK) p all_results; subst p all_results.
  - split; [|split].
    + unfold Doi.fetch_award_history.
      rewrite (doi_fetch_loop_full_pages up _ pages N).
      2:{ intros i Hi. destruct (Hfull i) as [Hs Hl]; [lia|].
          split; [done|]. rewrite Hl. split; [simpl; lia|].
          intros Hnil. rewrite Hnil in Hl. done. }
      replace (1 + Z.of_nat N) with (Z.of_nat N + 1) by lia.
      rewrite (doi_fetch_loop_short_page _ _ _ _ _ _ _ Hlast).
      * rewrite post_posted, posted_posted. simpl app at 1.
        unfold page_requests. rewrite !seqZ_snoc, !fmap_app, join_app by lia.
        simpl. rewrite app_nil_r.
        by replace (1 + Z.of_nat N) with (Z.of_nat N + 1) by lia.
      * rewrite HlenK. simpl. lia.
      * intros Hnil. rewrite Hnil in HlenK. simpl in HlenK. lia.
    + apply length_served_pages; [|done]. intros i Hi. by apply Hfull.
    + intros Hin. apply elem_of_page_requests in Hin. simpl in Hin. lia.
  - split; [|split].
    + unfold Ees.fetch_personnel_spending.
      edestruct (ees_fetch_loop_full_pages up (Ees.payload start_date end_date)
                   pages N (S rest) 1 [] 0 w) as [total' ->].
      { intros i Hi. destruct (Hfull i) as [Hs Hl]; [lia|].
        split; [done|]. rewrite Hl. split; [simpl; lia|].
        intros Hnil. rewrite Hnil in Hl. done. }
      replace (1 + Z.of_nat N) with (Z.of_nat N + 1) by lia.
      rewrite (ees_fetch_loop_short_page _ _ _ _ _ _ _ _ Hlast).
      * rewrite post_posted, posted_posted. simpl app at 1.
        unfold page_requests. rewrite !seqZ_snoc, !fmap_app, join_app by lia.
        simpl. rewrite app_nil_r.
        by replace (1 + Z.of_nat N) with (Z.of_nat N + 1) by lia.
      * rewrite HlenK. simpl. lia.
      * intros Hnil. rewrite Hnil in HlenK. simpl in HlenK. lia.
    + apply length_served_pages; [|done]. intros i Hi. by apply Hfull.
    + intros Hin. apply elem_of_page_requests in Hin. simpl in Hin. lia.
Qed.

(** C7: an empty result list on page 1 (status 200): each fetcher returns
    the empty list, as a normal return, after the single request for
    page 1. *)
Theorem fetchers_empty_first_page up start_date end_date fuel w :
  (0 < fuel)%nat ->
  (serves up (Doi.payload start_date end_date) 1 [] ->
   Doi.fetch_award_history fuel up start_date end_date w
   = Some (Returned [],
           posted [set_page (Doi.payload start_date end_date) 1] w))
  /\
  (serves up (Ees.payload start_date end_date) 1 [] ->
   Ees.fetch_personnel_spending fuel up start_date end_date w
   = Some (Returned [],
           posted [set_page (Ees.payload start_date end_date) 1] w)).
Proof.
  intros Hfuel. destruct fuel as [|fuel]; [lia|].
  split; intros Hs.
  - unfold Doi.fetch_award_history. simpl. rewrite Hs. reflexivity.
  - unfold Ees.fetch_personnel_spending. simpl. rewrite Hs. reflexivity.
Qed.

Lemma page_results_served up p i rs :
  serves up p i rs -> page_results up p i = rs.
Proof. unfold serves, page_results. intros ->. reflexivity. Qed.

Lemma doi_fetch_loop_S fuel up p page acc w :
  Doi.fetch_loop (S fuel) up p page acc w
  = match up (set_page p page) with
    | RequestException => Some (Returned acc, post (set_page p page) w)
    | Response status_code json =>
        if negb (status_code =? 200)
        then Some (Returned acc, post (set_page p page) w)
        else
          match json with
          | NotJSON => Some (Returned acc, post (set_page p page) w)
          | NotObject => Some (Raised TypeError, post (set_page p page) w)
          | NoResults => Some (Raised KeyError, post (set_page p page) w)
          | Results [] => Some (Returned acc, post (set_page p page) w)
          | Results results =>
              if Z.of_nat (length results) <? limit p
              then Some (Returned (acc ++ results), post (set_page p page) w)
              else Doi.fetch_loop fuel up p (page + 1) (acc ++ results)
                                  (post (set_page p page) w)
          end
    end.
Proof.
  simpl. destruct (up (set_page p page)) as [|status [| | |[|r rs]]]; try done.
  destruct (negb _); [done|]. simpl limit. destruct (_ <? _); [done|].
  apply doi_fetch_loop_payload.
Qed.

(** One iteration on a request that fails: the loop ends with what it has
    accumulated. *)
Lemma doi_fetch_loop_failed fuel up p page acc w :
  failed (up (set_page p page)) ->
  Doi.fetch_loop (S fuel) up p page acc w
  = Some (Returned acc, post (set_page p page) w).
Proof.
  intros Hfail. rewrite doi_fetch_loop_S.
  destruct (up (set_page p page)) as [|status json]; [done|].
  simpl in Hfail. destruct (status =? 200) eqn:E; [|done].
  apply Z.eqb_eq in E. done.
Qed.

(** C3: the pages before page [n] are served with at least 100 records
    each, so that the request for page [n] is made, and that request
    raises or is answered with a status other than 200.
    [fetch_award_history] then returns, without raising, exactly the
    records of the pages 1 .. n-1, after exactly the requests for the
    pages 1 .. n, each posted once: the failed request is not repeated and
    no later page is requested. *)
Theorem fetch_award_history_failed_page
    up start_date end_date (n : Z) pages fuel w :
  let p := Doi.payload start_date end_date in
  1 <= n -> n <= Z.of_nat fuel ->
  (forall i, 1 <= i < n ->
             serves up p i (pages i) /\ (100 <= length (pages i))%nat) ->
  failed (up (set_page p n)) ->
  Doi.fetch_award_history fuel up start_date end_date w
  = Some (Returned (mjoin (pages <$> seqZ 1 (n - 1))),
          posted (page_requests p 1 n) w).
Proof.
  intros p Hn Hfuel Hfull Hfail.
  destruct (Nat.le_exists_sub (S (Z.to_nat (n - 1))) fuel)
    as (rest & -> & _); [lia|].
  replace (rest + S (Z.to_nat (n - 1)))%nat
    with (Z.to_nat (n - 1) + S rest)%nat by lia.
  unfold Doi.fetch_award_history. fold p.
  rewrite (doi_fetch_loop_full_pages up p pages (Z.to_nat (n - 1))).
  2:{ intros i Hi. destruct (Hfull i) as [Hs Hl]; [lia|].
      split; [done|]. split; [simpl; lia|].
      intros Hnil. rewrite Hnil in Hl. simpl in Hl. lia. }
  replace (Z.of_nat (Z.to_nat (n - 1))) with (n - 1) by lia.
  replace (1 + (n - 1)) with n by lia.
  rewrite doi_fetch_loop_failed by done.
  rewrite post_posted, posted_posted. simpl app at 1.
  do 3 f_equal. unfold page_requests.
  replace (seqZ 1 n) with (seqZ 1 ((n - 1) + 1)) by (f_equal; lia).
  rewrite seqZ_snoc, fmap_app by lia. simpl.
  by replace (1 + (n - 1)) with n by lia.
Qed.

(** ** The aggregator *)

Lemma assoc_replace_column_eq name col cols :
  assoc name (replace_column name col cols) = Some col.
Proof.
  induction cols as [|[k c] cols IH]; simpl.
  - by rewrite String.eqb_refl.
  - destruct (String.eqb name k) eqn:E; simpl; rewrite E; [done|exact IH].
Qed.

Lemma assoc_replace_column_ne name name' col cols :
  name <> name' ->
  assoc name' (replace_column name col cols) = assoc name' cols.
Proof.
  intros Hne. induction cols as [|[k c] cols IH]; simpl.
  - destruct (String.eqb name' name) eqn:E; [|done].
    apply String.eqb_eq in E. congruence.
  - destruct (String.eqb name k) eqn:E; simpl.
    + apply String.eqb_eq in E. subst k.
      destruct (String.eqb name' name) eqn:E'; [|done].
      apply String.eqb_eq in E'. congruence.
    + by rewrite IH.
Qed.

Lemma get_set_column_eq name col df :
  get_column name (set_column name col df) = Returned col.
Proof. unfold get_column, set_column. simpl. by rewrite assoc_replace_column_eq. Qed.

Lemma get_set_column_ne name name' col df :
  name <> name' ->
  get_column name' (set_column name col df) = get_column name' df.
Proof.
  intros H. unfold get_column, set_column. simpl.
  by rewrite assoc_replace_column_ne.
Qed.

(** C5: a table whose award type codes are "A" and "02" with the amounts
    100 and 50: "A" is mapped to Contracts and "02" to Grants, and the
    category summary is Contracts: sum 100, count 1 and Grants: sum 50,
    count 1. *)
Theorem category_summary_contracts_grants (final_df : DataFrame) :
  get_column "Award Type" final_df = Returned [Str "A"; Str "02"] ->
  get_column "Transaction Amount" final_df = Returned [Num 100; Num 50] ->
  Doi.award_type_map !! "A" = Some "Contracts"
  /\ Doi.award_type_map !! "02" = Some "Grants"
  /\ Doi.category_summary final_df
     = Returned [("Contracts", (100%Q, 1%nat)); ("Grants", (50%Q, 1%nat))].
Proof.
  intros Htype Hamount. split; [reflexivity|]. split; [reflexivity|].
  unfold Doi.category_summary, mbind, result_bind.
  rewrite Htype. cbv beta iota zeta.
  rewrite get_set_column_eq, get_set_column_ne, Hamount by done.
  vm_compute. reflexivity.
Qed.

(** C8: on the empty list [process_results] of either script returns,
    without raising, the empty table: no rows, no columns, so none of the
    parsed-date, numeric-amount and formatted-amount columns. *)
Theorem process_results_empty
    (to_datetime : list cell -> result (list cell))
    (numeric_of_string : string -> option Q) (format_amount : Q -> string) :
  Doi.process_results to_datetime numeric_of_string format_amount []
  = Returned empty_frame
  /\ Ees.process_results to_datetime numeric_of_string format_amount []
     = Returned empty_frame
  /\ nrows empty_frame = 0%nat
  /\ columns empty_frame = []
  /\ empty empty_frame = true
  /\ has_column "Action Date" empty_frame = false
  /\ has_column "Transaction Amount" empty_frame = false
  /\ has_column "Amount" empty_frame = false
  /\ has_column "Formatted Amount" empty_frame = false.
Proof. repeat split. Qed.

(** C9: the fourteen award type codes of the request filter are all keys of
    [award_type_map], each mapped to one of the five categories, so
    [map_dict] leaves no such code without a category. *)
Theorem award_type_map_total start_date end_date :
  Requests.award_type_codes (Doi.payload start_date end_date)
  = ["A"; "B"; "C"; "D"; "02"; "03"; "04"; "05"; "06"; "10"; "07"; "08";
     "09"; "11"]
  /\ Forall (fun code =>
               exists category,
                 Doi.award_type_map !! code = Some category
                 /\ category ∈ Doi.award_categories
                 /\ map_dict Doi.award_type_map [Str code] = [Str category])
            (Requests.award_type_codes (Doi.payload start_date end_date))
  /\ NoDup Doi.award_categories
  /\ length Doi.award_categories = 5%nat.
Proof.
  split; [reflexivity|]. split; [|split; [|reflexivity]].
  - simpl. unfold Doi.award_type_codes.
    repeat constructor;
      (eexists; split; [vm_compute; reflexivity|];
       split; [unfold Doi.award_categories; set_solver|];
       vm_compute; reflexivity).
  - unfold Doi.award_categories. apply NoDup_ListNoDup.
    repeat constructor; simpl; intuition discriminate.
Qed.

(** ** The output writer *)

Lemma doi_fetch_loop_world fuel up p :
  forall page acc w,
    Doi.fetch_loop fuel up p page acc w
    = match Doi.fetch_loop fuel up p page acc world0 with
      | None => None
      | Some (res, w1) => Some (res, posted (requests w1) w)
      end.
Proof.
  induction fuel as [|fuel IH]; intros page acc w; [done|].
  rewrite !doi_fetch_loop_S.
  destruct (up (set_page p page)) as [|status [| | |[|r rs]]]; try done;
    destruct (negb _); try done.
  destruct (_ <? _); [done|].
  rewrite (IH _ _ (post _ w)), (IH _ _ (post _ world0)).
  destruct (Doi.fetch_loop fuel up p (page + 1) _ world0) as [[res w1]|];
    [|done].
  rewrite !post_posted, !posted_posted. simpl. reflexivity.
Qed.

Lemma fetch_award_history_world fuel up start_date end_date w :
  Doi.fetch_award_history fuel up start_date end_date w
  = match Doi.fetch_award_history fuel up start_date end_date world0 with
    | None => None
    | Some (res, w1) => Some (res, posted (requests w1) w)
    end.
Proof. apply doi_fetch_loop_world. Qed.

(** The loop over the chunks, when every chunk completes: the tables of
    the chunks that have one are appended to [all_data] and written, in
    order. *)
Lemma process_weeks_completes to_datetime numeric_of_string format_amount
    fuel up weeks :
  forall all_data w,
    forallb (fun nw => week_completes to_datetime numeric_of_string
                                      format_amount fuel up nw.2) weeks
    = true ->
    exists reqs,
      Doi.process_weeks to_datetime numeric_of_string format_amount
                        fuel up weeks all_data w
      = Some (Returned
                (all_data ++ (week_files to_datetime numeric_of_string
                                         format_amount fuel up weeks).*2),
              {| requests := requests w ++ reqs;
                 files := files w
                          ++ week_files to_datetime numeric_of_string
                                        format_amount fuel up weeks |}).
Proof.
  induction weeks as [|[week_num [week_start week_end]] weeks IH];
    intros all_data w Hall.
  - exists []. simpl. rewrite !app_nil_r. by destruct w.
  - simpl in Hall. apply andb_prop in Hall as [Hweek Hall].
    unfold week_completes, week_files in *. simpl omap.
    unfold week_table in *. simpl in Hweek |- *.
    rewrite fetch_award_history_world.
    destruct (Doi.fetch_award_history fuel up week_start week_end world0)
      as [[[data|e] w1]|]; [|done..].
    destruct data as [|r data].
    { destruct (IH all_data (posted (requests w1) w) Hall) as [reqs ->].
      exists (requests w1 ++ reqs). simpl. by rewrite app_assoc. }
    destruct (Doi.process_results _ _ _ (r :: data)) as [df|e]; [|done].
    destruct (empty df).
    { destruct (IH all_data (posted (requests w1) w) Hall) as [reqs ->].
      exists (requests w1 ++ reqs). simpl. by rewrite app_assoc. }
    destruct (IH (all_data ++ [df])
                 (to_csv (Doi.week_filename week_num) df
                         (posted (requests w1) w)) Hall) as [reqs ->].
    exists (requests w1 ++ reqs). simpl.
    by rewrite <- !app_assoc.
Qed.

Lemma forallb_enumerate {A} (f : A -> bool) (start : nat) (xs : list A) :
  forallb (fun nx => f nx.2) (enumerate start xs) = forallb f xs.
Proof.
  revert start. induction xs as [|x xs IH]; intros start; [done|].
  simpl. by rewrite IH.
Qed.

Lemma length_week_files to_datetime numeric_of_string format_amount
    fuel up (start : nat) (weeks : list (string * string)) :
  length (week_files to_datetime numeric_of_string format_amount fuel up
                     (enumerate start weeks))
  = length (List.filter
              (week_has_table to_datetime numeric_of_string format_amount
                              fuel up) weeks).
Proof.
  revert start. induction weeks as [|week weeks IH]; intros start; [done|].
  unfold week_files, week_has_table in *. simpl.
  destruct (week_table _ _ _ fuel up week) as [[[df|]|e]|]; simpl;
    by rewrite IH.
Qed.

Lemma list_ascii_of_string_app s t :
  list_ascii_of_string (s +:+ t)
  = list_ascii_of_string s ++ list_ascii_of_string t.
Proof. induction s as [|c s IH]; simpl; [done|]. by rewrite IH. Qed.

Lemma string_app_inv_tail s1 s2 t : s1 +:+ t = s2 +:+ t -> s1 = s2.
Proof.
  intros H. apply (f_equal list_ascii_of_string) in H.
  rewrite !list_ascii_of_string_app in H. apply app_inv_tail in H.
  apply (f_equal string_of_list_ascii) in H.
  by rewrite !string_of_list_ascii_of_string in H.
Qed.

(** The name of a per-chunk file determines the chunk's number. *)
Lemma week_filename_inj (m n : nat) :
  Doi.week_filename m = Doi.week_filename n -> m = n.
Proof.
  unfold Doi.week_filename. intros H.
  apply (inj (String.append _)) in H. apply (inj (String.append _)) in H.
  apply string_app_inv_tail in H. by apply (inj pretty) in H.
Qed.

(** C4: when every chunk completes (its fetch ends and neither the fetch
    nor the processing raises), [main] writes one per-chunk file for each
    chunk that has a table (a fetch with records that make a non-empty
    table), named with the 1-based number of the chunk, in chunk order, and
    then the complete file if some chunk has a table; the number of
    per-chunk files is the number of chunks that have a table. *)
Theorem main_writes_chunks_with_tables
    (to_datetime : list cell -> result (list cell))
    (numeric_of_string : string -> option Q) (format_amount : Q -> string)
    fuel up w :
  let weeks := yielded (Doi.get_week_ranges Doi.start_date Doi.end_date) in
  let weekly :=
    week_files to_datetime numeric_of_string format_amount fuel up
               (enumerate 1 weeks) in
  forallb (week_completes to_datetime numeric_of_string format_amount fuel up)
          weeks = true ->
  exists reqs,
    Doi.main to_datetime numeric_of_string format_amount fuel up w
    = Some (None, {| requests := requests w ++ reqs;
                     files := files w ++ weekly ++ complete_file weekly |})
    /\ length weekly
       = length (List.filter
                   (week_has_table to_datetime numeric_of_string
                                   format_amount fuel up) weeks).
Proof.
  intros weeks weekly Hall.
  assert (Hstop : stopped (Doi.get_week_ranges Doi.start_date Doi.end_date)
                  = None) by (vm_compute; reflexivity).
  destruct (process_weeks_completes to_datetime numeric_of_string
              format_amount fuel up (enumerate 1 weeks) [] w) as [reqs Hrun].
  { by rewrite forallb_enumerate. }
  exists reqs. split; [|apply length_week_files].
  unfold Doi.main. rewrite Hstop. fold weeks. rewrite Hrun. fold weekly.
  simpl app at 1. unfold complete_file.
  destruct weekly as [|f weekly']; simpl.
  - by rewrite !app_nil_r.
  - unfold to_csv. simpl. by rewrite <- app_assoc.
Qed.

(** ** The properties on sample runs *)

Lemma fetchers_stop_after_short_page_witness :
  serves_pages mock_two_pages (Doi.payload "2023-10-01" "2023-10-07") 1 7
               mock_two_pages_content
  /\ serves_pages mock_two_pages (Ees.payload "2023-10-01" "2024-09-30") 1 7
                  mock_two_pages_content
  /\ (exists all_results w,
         Doi.fetch_award_history 2 mock_two_pages "2023-10-01" "2023-10-07"
                                 world0
         = Some (Returned all_results, w)
         /\ length all_results = 107%nat
         /\ page <$> requests w = [1; 2])
  /\ (exists all_results w,
         Ees.fetch_personnel_spending 2 mock_two_pages "2023-10-01"
                                      "2024-09-30" world0
         = Some (Returned all_results, w)
         /\ length all_results = 107%nat
         /\ page <$> requests w = [1; 2]).
Proof.
  assert (Hd : serves_pages mock_two_pages
                 (Doi.payload "2023-10-01" "2023-10-07") 1 7
                 mock_two_pages_content).
  { split; [|split; reflexivity].
    intros i Hi. assert (i = 1) as -> by lia. split; reflexivity. }
  assert (He : serves_pages mock_two_pages
                 (Ees.payload "2023-10-01" "2024-09-30") 1 7
                 mock_two_pages_content).
  { split; [|split; reflexivity].
    intros i Hi. assert (i = 1) as -> by lia. split; reflexivity. }
  split; [exact Hd|]. split; [exact He|]. split.
  - destruct (fetchers_stop_after_short_page mock_two_pages "2023-10-01"
                "2023-10-07" 1 7 mock_two_pages_content 2 world0)
      as [H _]; [lia|lia|].
    destruct (H Hd) as (Hrun & Hlen & _).
    eexists _, _. split; [exact Hrun|]. split; [exact Hlen|reflexivity].
  - destruct (fetchers_stop_after_short_page mock_two_pages "2023-10-01"
                "2024-09-30" 1 7 mock_two_pages_content 2 world0)
      as [_ H]; [lia|lia|].
    destruct (H He) as (Hrun & Hlen & _).
    eexists _, _. split; [exact Hrun|]. split; [exact Hlen|reflexivity].
Defined.

Lemma fetch_award_history_failed_page_witness :
  let p := Doi.payload "2023-10-01" "2023-10-07" in
  (forall i, 1 <= i < 2 ->
             serves mock_error_on_page_2 p i (sample_page 100)
             /\ (100 <= length (sample_page 100))%nat)
  /\ failed (mock_error_on_page_2 (set_page p 2))
  /\ Doi.fetch_award_history 2 mock_error_on_page_2 "2023-10-01"
                             "2023-10-07" world0
     = Some (Returned (mjoin ((fun _ => sample_page 100) <$> seqZ 1 (2 - 1))),
             posted (page_requests p 1 2) world0).
Proof.
  assert (Hfull : forall i, 1 <= i < 2 ->
            serves mock_error_on_page_2
                   (Doi.payload "2023-10-01" "2023-10-07") i (sample_page 100)
            /\ (100 <= length (sample_page 100))%nat).
  { intros i Hi. assert (i = 1) as -> by lia. split; [reflexivity|].
    unfold sample_page. rewrite length_replicate. lia. }
  split; [exact Hfull|]. split; [simpl; lia|].
  apply (fetch_award_history_failed_page mock_error_on_page_2
           "2023-10-01" "2023-10-07" 2 (fun _ => sample_page 100) 2 world0);
    [lia | lia | exact Hfull | simpl; lia].
Defined.

(** The same run, evaluated: the error on page 2 leaves exactly the 100
    records of page 1, after the requests for pages 1 and 2. *)
Example fetch_award_history_error_on_page_2 :
  Doi.fetch_award_history 2 mock_error_on_page_2 "2023-10-01" "2023-10-07"
                          world0
  = Some (Returned (sample_page 100),
          posted (page_requests (Doi.payload "2023-10-01" "2023-10-07") 1 2)
                 world0).
Proof. vm_compute. reflexivity. Qed.

Lemma fetchers_empty_first_page_witness :
  Doi.fetch_award_history 1 mock_empty "2023-10-01" "2023-10-07" world0
  = Some (Returned [],
          posted [set_page (Doi.payload "2023-10-01" "2023-10-07") 1] world0)
  /\ Ees.fetch_personnel_spending 1 mock_empty "2023-10-01" "2024-09-30"
                                  world0
     = Some (Returned [],
             posted [set_page (Ees.payload "2023-10-01" "2024-09-30") 1]
                    world0).
Proof.
  split.
  - apply (fetchers_empty_first_page mock_empty "2023-10-01" "2023-10-07" 1
             world0); [lia | reflexivity].
  - apply (fetchers_empty_first_page mock_empty "2023-10-01" "2024-09-30" 1
             world0); [lia | reflexivity].
Defined.

Lemma category_summary_contracts_grants_witness :
  Doi.process_results keep_column no_number whole_dollars
                      [sample_record "A" 100; sample_record "02" 50]
  = Returned sample_table
  /\ Doi.category_summary sample_table
     = Returned [("Contracts", (100%Q, 1%nat)); ("Grants", (50%Q, 1%nat))].
Proof.
  split; [vm_compute; reflexivity|].
  apply (category_summary_contracts_grants sample_table);
    reflexivity.
Defined.

Lemma main_writes_chunks_with_tables_witness :
  let weeks := yielded (Doi.get_week_ranges Doi.start_date Doi.end_date) in
  let weekly :=
    week_files keep_column no_number whole_dollars 1 mock_one_week
               (enumerate 1 weeks) in
  forallb (week_completes keep_column no_number whole_dollars 1 mock_one_week)
          weeks = true
  /\ exists reqs,
      Doi.main keep_column no_number whole_dollars 1 mock_one_week world0
      = Some (None, {| requests := requests world0 ++ reqs;
                       files := files world0 ++ weekly
                                ++ complete_file weekly |})
      /\ length weekly
         = length (List.filter
                     (week_has_table keep_column no_number whole_dollars 1
                                     mock_one_week) weeks).
Proof.
  intros weeks weekly. split; [vm_compute; reflexivity|].
  apply (main_writes_chunks_with_tables keep_column no_number whole_dollars
           1 mock_one_week world0).
  vm_compute. reflexivity.
Defined.

(** The run with [mock_one_week]: 53 chunks, one per-chunk file (for chunk
    2, the only one whose fetch returned records) and the complete file. *)
Lemma main_chunk_files_counterexample :
  exists w,
    Doi.main keep_column no_number whole_dollars 1 mock_one_week world0
    = Some (None, w)
    /\ length (yielded (Doi.get_week_ranges Doi.start_date Doi.end_date))
       = 53%nat
    /\ files w = [(Doi.week_filename 2, sample_table);
                  (Doi.complete_filename, sample_table)]
    /\ length (chunk_files w) = 1%nat
    /\ length (chunk_files w)
       <> length (yielded (Doi.get_week_ranges Doi.start_date Doi.end_date)).
Proof.
  eexists. split; [vm_compute; reflexivity|].
  split; [vm_compute; reflexivity|].
  split; [vm_compute; reflexivity|].
  split; [vm_compute; reflexivity|].
  vm_compute. discriminate.
Qed.

(** ** The date-range splitter, for all dates *)

Lemma days_before_year_decomp a b c e :
  0 <= a -> 0 <= b <= 3 -> 0 <= c <= 24 -> 0 <= e <= 3 ->
  days_before_year (400 * a + 100 * b + 4 * c + e + 1)
  = 146097 * a + 36524 * b + 1461 * c + 365 * e.
Proof.
  intros. unfold days_before_year. cbn zeta.
  replace (400 * a + 100 * b + 4 * c + e + 1 - 1) with (400 * a + 100 * b + 4 * c + e) by lia.
  Z.div_mod_to_equations. lia.
Qed.

Lemma is_leap_decomp a b c e :
  0 <= a -> 0 <= b <= 3 -> 0 <= c <= 24 -> 0 <= e <= 3 ->
  is_leap (400 * a + 100 * b + 4 * c + e + 1)
  = (e =? 3) && (negb (c =? 24) || (b =? 3)).
Proof.
  intros. unfold is_leap.
  destruct (e =? 3) eqn:E3, (c =? 24) eqn:E24, (b =? 3) eqn:Eb; simpl;
    repeat match goal with
           | H : (_ =? _) = true |- _ => apply Z.eqb_eq in H
           | H : (_ =? _) = false |- _ => apply Z.eqb_neq in H
           end;
    repeat match goal with
           | |- context [?x mod ?k =? 0] =>
               let E := fresh "E" in destruct (x mod k =? 0) eqn:E;
               [apply Z.eqb_eq in E | apply Z.eqb_neq in E]
           end; simpl; try reflexivity; exfalso;
    Z.div_mod_to_equations; lia.
Qed.

Lemma month_day_spec (leapyear : bool) (n : Z) :
  0 <= n < (if leapyear then 366 else 365) ->
  month_day_ok leapyear n = true.
Proof.
  intros Hn.
  assert (H : forallb (month_day_ok true) (seqZ 0 366) = true
              /\ forallb (month_day_ok false) (seqZ 0 365) = true)
    by (split; vm_compute; reflexivity).
  destruct H as [Ht Hf]. rewrite List.forallb_forall in Ht, Hf.
  destruct leapyear.
  - apply Ht. apply list_elem_of_In, elem_of_seqZ. lia.
  - apply Hf. apply list_elem_of_In, elem_of_seqZ. lia.
Qed.

Lemma ord2ymd_eq n :
  let n0 := n - 1 in
  let a := n0 / DI400Y in let r1 := n0 mod DI400Y in
  let b := r1 / DI100Y in let r2 := r1 mod DI100Y in
  let c := r2 / DI4Y in let r3 := r2 mod DI4Y in
  let e := r3 / 365 in let r4 := r3 mod 365 in
  ord2ymd n
  = if (e =? 4) || (b =? 4) then (400 * a + 100 * b + 4 * c + e + 1 - 1, 12, 31)
    else
      let md := month_day ((e =? 3) && (negb (c =? 24) || (b =? 3))) r4 in
      (400 * a + 100 * b + 4 * c + e + 1, md.1, md.2).
Proof.
  cbv zeta. unfold ord2ymd, month_day. cbv zeta.
  destruct (_ || _); [f_equal; f_equal; lia|].
  destruct (_ <? _); simpl; f_equal; f_equal; lia.
Qed.

Lemma ord2ymd_spec n :
  MINORDINAL <= n <= MAXORDINAL ->
  exists y m d,
    ord2ymd n = (y, m, d)
    /\ 1 <= y <= 9999 /\ 1 <= m <= 12 /\ 1 <= d <= days_in_month y m
    /\ ymd2ord y m d = n.
Proof.
  unfold MINORDINAL, MAXORDINAL. intros Hn.
  pose proof (ord2ymd_eq n) as Heq. cbv zeta in Heq. rewrite Heq. clear Heq.
  unfold DI400Y, DI100Y, DI4Y.
  set (n0 := n - 1).
  set (a := n0 / 146097). set (r1 := n0 mod 146097).
  set (b := r1 / 36524). set (r2 := r1 mod 36524).
  set (c := r2 / 1461). set (r3 := r2 mod 1461).
  set (e := r3 / 365). set (r4 := r3 mod 365).
  assert (Ha : n0 = 146097 * a + r1 /\ 0 <= r1 < 146097)
    by (subst a r1; Z.div_mod_to_equations; lia).
  assert (Hb : r1 = 36524 * b + r2 /\ 0 <= r2 < 36524)
    by (subst b r2; Z.div_mod_to_equations; lia).
  assert (Hc : r2 = 1461 * c + r3 /\ 0 <= r3 < 1461)
    by (subst c r3; Z.div_mod_to_equations; lia).
  assert (He : r3 = 365 * e + r4 /\ 0 <= r4 < 365)
    by (subst e r4; Z.div_mod_to_equations; lia).
  clearbody a r1 b r2 c r3 e r4. subst n0.
  assert (0 <= a <= 24 /\ 0 <= b <= 4 /\ 0 <= c <= 24 /\ 0 <= e <= 4) by lia.
  destruct (e =? 4) eqn:E4; [apply Z.eqb_eq in E4|apply Z.eqb_neq in E4].
  { simpl. subst e. assert (c <= 23) by lia. assert (b <= 3) by lia.
    exists (400 * a + 100 * b + 4 * c + 3 + 1), 12, 31.
    split; [f_equal; f_equal; lia|].
    unfold ymd2ord, days_in_month, days_before_month.
    rewrite days_before_year_decomp, is_leap_decomp by lia.
    replace (c =? 24) with false by (symmetry; apply Z.eqb_neq; lia).
    simpl. lia. }
  destruct (b =? 4) eqn:B4; [apply Z.eqb_eq in B4|apply Z.eqb_neq in B4].
  { simpl. subst b.
    exists (400 * a + 100 * 3 + 4 * 24 + 3 + 1), 12, 31.
    split; [f_equal; f_equal; lia|].
    unfold ymd2ord, days_in_month, days_before_month.
    rewrite days_before_year_decomp, is_leap_decomp by lia.
    simpl. lia. }
  simpl orb. cbv iota zeta.
  pose proof (month_day_spec ((e =? 3) && (negb (c =? 24) || (b =? 3))) r4) as Hmd.
  unfold month_day_ok in Hmd.
  destruct (month_day _ r4) as [m d]. simpl fst. simpl snd.
  exists (400 * a + 100 * b + 4 * c + e + 1), m, d.
  split; [reflexivity|].
  unfold ymd2ord, days_in_month, days_before_month.
  rewrite days_before_year_decomp, is_leap_decomp by lia.
  rewrite !andb_true_iff in Hmd.
  destruct Hmd as [[[[H1 H2] H3] H4] H5].
  { destruct (_ && _); lia. }
  rewrite (andb_comm (m =? 2)) in H4. rewrite (andb_comm (m =? 2)).
  apply Z.eqb_eq in H5. lia.
Qed.

Lemma digit_char_spec k :
  is_digit (digit_char k) = true
  /\ digit (digit_char k) = k mod 10
  /\ Ascii.eqb (digit_char k) "-" = false.
Proof.
  unfold digit_char.
  assert (H : 0 <= k mod 10 < 10) by (apply Z.mod_pos_bound; lia).
  set (j := k mod 10) in *. clearbody j.
  assert (Hj : j = 0 \/ j = 1 \/ j = 2 \/ j = 3 \/ j = 4 \/ j = 5 \/ j = 6
               \/ j = 7 \/ j = 8 \/ j = 9) by lia.
  repeat destruct Hj as [-> | Hj]; try subst j; vm_compute; done.
Qed.

Lemma split_dash_pad4 y rest :
  split_dash (pad4 y +:+ "-" +:+ rest) = Some (pad4 y, rest).
Proof.
  unfold pad4, pad2.
  destruct (digit_char_spec (y / 1000)) as (_ & _ & H1).
  destruct (digit_char_spec (y / 100)) as (_ & _ & H2).
  destruct (digit_char_spec (y / 10)) as (_ & _ & H3).
  destruct (digit_char_spec y) as (_ & _ & H4).
  simpl. rewrite H1, H2, H3, H4. reflexivity.
Qed.

Lemma parse_year_pad4 y : 0 <= y <= 9999 -> parse_year (pad4 y) = Some y.
Proof.
  intros Hy. unfold pad4, pad2, parse_year.
  destruct (digit_char_spec (y / 1000)) as (-> & -> & _).
  destruct (digit_char_spec (y / 100)) as (-> & -> & _).
  destruct (digit_char_spec (y / 10)) as (-> & -> & _).
  destruct (digit_char_spec y) as (-> & -> & _).
  simpl. f_equal. Z.div_mod_to_equations. lia.
Qed.

Lemma month_day_text_spec m d :
  1 <= m <= 12 -> 1 <= d <= 31 -> month_day_text_ok m d = true.
Proof.
  intros Hm Hd.
  assert (H : forallb (fun m => forallb (month_day_text_ok m) (seqZ 1 31))
                      (seqZ 1 12) = true) by (vm_compute; reflexivity).
  rewrite List.forallb_forall in H.
  specialize (H m). rewrite List.forallb_forall in H.
  apply H; apply list_elem_of_In, elem_of_seqZ; lia.
Qed.

Lemma days_in_month_le y m : days_in_month y m <= 31.
Proof.
  unfold days_in_month. destruct (_ && _); [lia|].
  unfold DAYS_IN_MONTH. repeat case_match; lia.
Qed.

Lemma ymd2ord_below_year_1000 y m d :
  1 <= y <= 999 -> 1 <= m <= 12 -> 1 <= d <= days_in_month y m ->
  ymd2ord y m d < YEAR_1000.
Proof.
  intros Hy Hm Hd. change YEAR_1000 with 364878.
  unfold ymd2ord, days_before_year, days_before_month,
    days_in_month, is_leap in *. cbn zeta.
  assert (Hm' : m = 1 \/ m = 2 \/ m = 3 \/ m = 4 \/ m = 5 \/ m = 6 \/ m = 7
                \/ m = 8 \/ m = 9 \/ m = 10 \/ m = 11 \/ m = 12) by lia.
  assert (Hdiv : ((y - 1) * 365 + (y - 1) / 4 - (y - 1) / 100 + (y - 1) / 400
                  + 365
                  + (if (y mod 4 =? 0)
                        && (negb (y mod 100 =? 0) || (y mod 400 =? 0))
                     then 1 else 0)) < 364878).
  { clear Hd Hm Hm'.
    destruct (y mod 4 =? 0) eqn:E4, (y mod 100 =? 0) eqn:E100,
      (y mod 400 =? 0) eqn:E400; simpl;
      repeat match goal with
             | H : (_ =? _) = true |- _ => apply Z.eqb_eq in H
             | H : (_ =? _) = false |- _ => apply Z.eqb_neq in H
             end; Z.div_mod_to_equations; lia. }
  set (leap := (y mod 4 =? 0) && (negb (y mod 100 =? 0) || (y mod 400 =? 0))) in *.
  clearbody leap.
  repeat destruct Hm' as [-> | Hm']; try subst m; simpl in *;
    destruct leap; simpl in *; lia.
Qed.

(** From the year 1000 on the unpadded year has four digits. *)
Lemma year_digits_pad4 y : 1000 <= y -> year_digits y = pad4 y.
Proof.
  intros Hy. unfold year_digits.
  destruct (y <? 10) eqn:E1; [lia|].
  destruct (y <? 100) eqn:E2; [lia|].
  destruct (y <? 1000) eqn:E3; [lia|]. reflexivity.
Qed.

(** A date from the year 1000 on is read back from its text. *)
Lemma strptime_strftime n :
  YEAR_1000 <= n <= MAXORDINAL -> strptime (strftime n) = Some n.
Proof.
  intros Hn.
  assert (Hn' : MINORDINAL <= n <= MAXORDINAL)
    by (revert Hn; change YEAR_1000 with 364878; unfold MINORDINAL; lia).
  destruct (ord2ymd_spec n Hn') as (y & m & d & Hymd & Hy & Hm & Hd & Hord).
  assert (Hy4 : 1000 <= y).
  { destruct (Z_lt_dec y 1000) as [Hlt|]; [|lia].
    pose proof (ymd2ord_below_year_1000 y m d ltac:(lia) Hm Hd). lia. }
  unfold strftime. rewrite Hymd, year_digits_pad4 by done.
  pose proof (days_in_month_le y m) as Hle.
  pose proof (month_day_text_spec m d Hm ltac:(lia)) as Hmd.
  unfold month_day_text_ok in Hmd. rewrite !andb_true_iff in Hmd.
  destruct Hmd as [[H1 H2] H3].
  apply bool_decide_eq_true in H1, H2, H3.
  unfold strptime. rewrite split_dash_pad4. cbn [mbind option_bind].
  rewrite H1. cbn [mbind option_bind]. rewrite parse_year_pad4 by lia.
  cbn [mbind option_bind]. rewrite H2. cbn [mbind option_bind].
  rewrite H3. cbn [mbind option_bind].
  unfold MINYEAR.
  destruct (1 <=? y) eqn:E1; [|lia].
  destruct (d <=? days_in_month y m) eqn:E2; [|lia].
  simpl. by rewrite Hord.
Qed.

Lemma is_digit_range c : is_digit c = true -> 0 <= digit c <= 9.
Proof. unfold is_digit, digit. intros H. apply andb_true_iff in H. lia. Qed.

Lemma parse_year_range s y : parse_year s = Some y -> 0 <= y <= 9999.
Proof.
  unfold parse_year. destruct s as [|a [|b [|c [|d [|]]]]]; try done.
  destruct (is_digit a) eqn:Ha, (is_digit b) eqn:Hb, (is_digit c) eqn:Hc,
    (is_digit d) eqn:Hd; try done. simpl. intros [= <-].
  apply is_digit_range in Ha, Hb, Hc, Hd. lia.
Qed.

Lemma parse_month_range s m : parse_month s = Some m -> 1 <= m <= 12.
Proof.
  unfold parse_month. destruct s as [|a [|b [|]]]; try done.
  - destruct (is_digit a) eqn:Ha; [|done]. apply is_digit_range in Ha.
    simpl. case_match; [|done]. intros [= <-]. lia.
  - repeat (case_match; try done). intros [= <-].
    repeat match goal with H : _ && _ = true |- _ => apply andb_true_iff in H as [? ?] end.
    lia.
Qed.

Lemma parse_day_range s d : parse_day s = Some d -> 1 <= d.
Proof.
  unfold parse_day. destruct s as [|a [|b [|]]]; try done.
  - case_match; [|done]. intros [= <-].
    apply andb_true_iff in H as [? ?]. lia.
  - repeat (case_match; try done); intros [= <-];
    repeat match goal with H : _ && _ = true |- _ => apply andb_true_iff in H as [? ?] end;
    lia.
Qed.

Lemma ymd2ord_range y m d :
  1 <= y <= 9999 -> 1 <= m <= 12 -> 1 <= d <= days_in_month y m ->
  MINORDINAL <= ymd2ord y m d <= MAXORDINAL.
Proof.
  intros Hy Hm Hd.
  unfold MINORDINAL, MAXORDINAL, ymd2ord, days_before_year, days_before_month,
    days_in_month, is_leap in *. cbn zeta.
  assert (Hm' : m = 1 \/ m = 2 \/ m = 3 \/ m = 4 \/ m = 5 \/ m = 6 \/ m = 7
                \/ m = 8 \/ m = 9 \/ m = 10 \/ m = 11 \/ m = 12) by lia.
  assert (Hdiv : 0 <= (y - 1) / 4 - (y - 1) / 100 + (y - 1) / 400
                 /\ ((y - 1) * 365 + (y - 1) / 4 - (y - 1) / 100 + (y - 1) / 400
                     + 365
                     + (if (y mod 4 =? 0)
                           && (negb (y mod 100 =? 0) || (y mod 400 =? 0))
                        then 1 else 0)) <= 3652059).
  { clear Hd Hm Hm'.
    destruct (y mod 4 =? 0) eqn:E4, (y mod 100 =? 0) eqn:E100,
      (y mod 400 =? 0) eqn:E400; simpl;
      repeat match goal with
             | H : (_ =? _) = true |- _ => apply Z.eqb_eq in H
             | H : (_ =? _) = false |- _ => apply Z.eqb_neq in H
             end; Z.div_mod_to_equations; lia. }
  destruct Hdiv as [Hlo Hhi].
  set (leap := (y mod 4 =? 0) && (negb (y mod 100 =? 0) || (y mod 400 =? 0))) in *.
  clearbody leap.
  repeat destruct Hm' as [-> | Hm']; try subst m; simpl in *;
    destruct leap; simpl in *; lia.
Qed.

Lemma strptime_range s n :
  strptime s = Some n -> MINORDINAL <= n <= MAXORDINAL.
Proof.
  unfold strptime. intros H.
  destruct (split_dash s) as [[ys rest]|]; [|done]. cbn [mbind option_bind] in H.
  destruct (split_dash rest) as [[ms ds]|]; [|done]. cbn [mbind option_bind] in H.
  destruct (parse_year ys) as [y|] eqn:Hy; [|done]. cbn [mbind option_bind] in H.
  destruct (parse_month ms) as [m|] eqn:Hm; [|done]. cbn [mbind option_bind] in H.
  destruct (parse_day ds) as [d|] eqn:Hd; [|done]. cbn [mbind option_bind] in H.
  destruct (_ && _) eqn:Hok; [|done]. injection H as <-.
  apply andb_true_iff in Hok as [H1 H2]. unfold MINYEAR in H1.
  apply parse_year_range in Hy. apply parse_month_range in Hm.
  apply parse_day_range in Hd.
  apply ymd2ord_range; lia.
Qed.

Lemma parse_ranges_format rs :
  Forall (fun r => YEAR_1000 <= r.1 <= MAXORDINAL
                   /\ YEAR_1000 <= r.2 <= MAXORDINAL) rs ->
  parse_ranges (Doi.format_range <$> rs) = Some rs.
Proof.
  induction 1 as [|[a b] rs [Ha Hb] _ IH]; [done|].
  rewrite fmap_cons. cbn [parse_ranges Doi.format_range fst snd].
  simpl in Ha, Hb.
  rewrite !strptime_strftime by done. cbn [mbind option_bind].
  rewrite IH. reflexivity.
Qed.

Lemma week_loop_in_range end_ current :
  YEAR_1000 <= current -> end_ <= MAXORDINAL ->
  Forall (fun r => YEAR_1000 <= r.1 <= MAXORDINAL
                   /\ YEAR_1000 <= r.2 <= MAXORDINAL)
         (yielded (Doi.week_loop current end_)).
Proof.
  intros Hc He. eapply Forall_impl; [apply week_loop_bounds|].
  simpl. intros r. lia.
Qed.

(** How [get_week_ranges] stops for dates that parse. *)
Lemma get_week_ranges_stopped start_date end_date start end_ :
  strptime start_date = Some start -> strptime end_date = Some end_ ->
  stopped (Doi.get_week_ranges start_date end_date)
  = stopped (Doi.week_loop start end_).
Proof.
  intros Hs He. unfold Doi.get_week_ranges. by rewrite Hs, He.
Qed.

(** What [get_week_ranges] yields for dates that parse, read back, when
    the start date is in the year 1000 or later. *)
Lemma get_week_ranges_parsed start_date end_date start end_ :
  strptime start_date = Some start -> strptime end_date = Some end_ ->
  YEAR_1000 <= start ->
  parse_ranges (yielded (Doi.get_week_ranges start_date end_date))
  = Some (yielded (Doi.week_loop start end_)).
Proof.
  intros Hs He Hy. unfold Doi.get_week_ranges. rewrite Hs, He. simpl.
  apply parse_ranges_format.
  apply strptime_range in Hs, He. apply week_loop_in_range; lia.
Qed.

Lemma week_loop_full_weeks end_ current :
  full_weeks_but_last (yielded (Doi.week_loop current end_)).
Proof.
  pattern current. revert current. apply (week_loop_induction end_); cbv beta.
  - intros current Hge. rewrite week_loop_done by done. exact I.
  - intros current Hlt IH. rewrite week_loop_unfold.
    destruct (decide (current < end_)); [|lia].
    destruct (add_days current 6) as [plus6|] eqn:H6; [|exact I].
    apply add_days_returned in H6. subst plus6.
    destruct (add_days _ 1) as [next|] eqn:H1; [|exact I].
    apply add_days_returned in H1. subst next. simpl.
    specialize (IH ((current + 6) `min` end_ + 1) ltac:(lia)).
    destruct (yielded (Doi.week_loop _ end_)) as [|r rest] eqn:Hrest;
      [exact I|].
    split; [|exact IH].
    destruct (decide (current + 6 < end_)); [lia|].
    rewrite week_loop_done in Hrest by lia. done.
Qed.

Lemma week_loop_length end_ current :
  MINORDINAL <= current -> end_ + 5 <= MAXORDINAL ->
  length (yielded (Doi.week_loop current end_))
  = Z.to_nat ((end_ - current + 6) / 7).
Proof.
  intros Hmin Hmax. revert Hmin. pattern current. revert current.
  apply (week_loop_induction end_); cbv beta.
  - intros current Hge _. rewrite week_loop_done by done. simpl.
    assert ((end_ - current + 6) / 7 <= 0) by (Z.div_mod_to_equations; lia).
    lia.
  - intros current Hlt IH Hmin. rewrite week_loop_unfold.
    destruct (decide (current < end_)); [|lia].
    unfold MINORDINAL, MAXORDINAL in *.
    rewrite add_days_in_range by (unfold MINORDINAL, MAXORDINAL; lia).
    rewrite add_days_in_range by (unfold MINORDINAL, MAXORDINAL; lia).
    simpl. rewrite IH by lia.
    destruct (decide (current + 6 < end_)).
    + rewrite Z.min_l by lia.
      assert ((end_ - current + 6) / 7 = (end_ - (current + 6 + 1) + 6) / 7 + 1
              /\ 0 <= (end_ - (current + 6 + 1) + 6) / 7)
        by (Z.div_mod_to_equations; lia).
      lia.
    + rewrite Z.min_r by lia.
      assert ((end_ - current + 6) / 7 = 1
              /\ (end_ - (end_ + 1) + 6) / 7 = 0)
        by (Z.div_mod_to_equations; lia).
      lia.
Qed.

Lemma week_loop_overflow current :
  MINORDINAL <= current < MAXORDINAL ->
  (MAXORDINAL - current) mod 7 <> 0 ->
  stopped (Doi.week_loop current MAXORDINAL) = Some OverflowError.
Proof.
  pattern current. revert current.
  apply (week_loop_induction MAXORDINAL); cbv beta.
  - intros current Hge Hc. lia.
  - intros current Hlt IH Hc Hmod. rewrite week_loop_unfold.
    destruct (decide (current < MAXORDINAL)); [|lia].
    unfold add_days at 1. cbn zeta.
    destruct (_ && _) eqn:E6; [|done].
    apply andb_true_iff in E6 as [E6a E6b].
    apply Z.leb_le in E6a, E6b.
    rewrite Z.min_l by lia.
    unfold add_days. cbn zeta.
    destruct (_ && _) eqn:E7; [|done].
    apply andb_true_iff in E7 as [E7a E7b].
    apply Z.leb_le in E7a, E7b. simpl.
    assert (current + 6 + 1 <> MAXORDINAL).
    { intros Heq. apply Hmod. unfold MAXORDINAL in *.
      Z.div_mod_to_equations. lia. }
    apply IH; [lia|lia|].
    intros Heq. apply Hmod. unfold MAXORDINAL in *.
    Z.div_mod_to_equations. lia.
Qed.

(** X1: for dates that parse, the start date in the year 1000 or later
    (so that [strftime] writes four-digit years), every yielded pair is a
    pair of well-formed dates, and read back each range starts no earlier
    than the start date, is not empty, spans at most seven days and ends no
    later than the end date. *)
Theorem get_week_ranges_ranges_within start_date end_date start end_ :
  strptime start_date = Some start -> strptime end_date = Some end_ ->
  YEAR_1000 <= start ->
  exists rs,
    parse_ranges (yielded (Doi.get_week_ranges start_date end_date)) = Some rs
    /\ Forall (fun r => start <= r.1 /\ r.1 <= r.2 /\ r.2 <= r.1 + 6
                        /\ r.2 <= end_) rs.
Proof.
  intros Hs He Hy.
  pose proof (get_week_ranges_parsed _ _ _ _ Hs He Hy) as Hrs.
  eexists. split; [exact Hrs|]. apply week_loop_bounds.
Qed.

(** X2: for dates that parse, the start date in the year 1000 or later:
    read back, the first yielded range starts on the start date, each next
    range starts the day after the previous one ends, and every range but
    the last spans exactly seven days. *)
Theorem get_week_ranges_contiguous start_date end_date start end_ :
  strptime start_date = Some start -> strptime end_date = Some end_ ->
  YEAR_1000 <= start ->
  exists rs,
    parse_ranges (yielded (Doi.get_week_ranges start_date end_date)) = Some rs
    /\ contiguous_from start rs
    /\ full_weeks_but_last rs.
Proof.
  intros Hs He Hy.
  pose proof (get_week_ranges_parsed _ _ _ _ Hs He Hy) as Hrs.
  eexists. split; [exact Hrs|].
  split; [apply week_loop_contiguous|apply week_loop_full_weeks].
Qed.

(** X3: for a start date in the year 1000 or later and an end date up to
    9999-12-26 the generator stops normally, and the days of the yielded
    ranges, in order, are the days from the start date on: up to the end
    date when the number of days between the two dates is not a multiple of
    seven, up to the day before it otherwise. *)
Theorem get_week_ranges_covered_days start_date end_date start end_ :
  strptime start_date = Some start -> strptime end_date = Some end_ ->
  YEAR_1000 <= start ->
  end_ + 5 <= MAXORDINAL ->
  stopped (Doi.get_week_ranges start_date end_date) = None
  /\ exists rs,
      parse_ranges (yielded (Doi.get_week_ranges start_date end_date))
      = Some rs
      /\ covered_days rs
         = seqZ start (if (end_ - start) mod 7 =? 0
                       then end_ - start else end_ - start + 1).
Proof.
  intros Hs He Hy Hmax.
  pose proof (get_week_ranges_parsed _ _ _ _ Hs He Hy) as Hrs.
  pose proof (get_week_ranges_stopped _ _ _ _ Hs He) as Hstop.
  pose proof (strptime_range _ _ Hs) as Hrange.
  destruct (week_loop_covered end_ start) as [Hnone Hdays]; [lia|done|].
  split; [by rewrite Hstop|]. eexists. split; [exact Hrs|exact Hdays].
Qed.

(** X4: for an end date up to 9999-12-26 the number of yielded ranges is
    the number of days from the start date to the end date, plus six,
    divided by seven (none when the end date is not after the start
    date). *)
Theorem get_week_ranges_count start_date end_date start end_ :
  strptime start_date = Some start -> strptime end_date = Some end_ ->
  end_ + 5 <= MAXORDINAL ->
  length (yielded (Doi.get_week_ranges start_date end_date))
  = Z.to_nat ((end_ - start + 6) / 7).
Proof.
  intros Hs He Hmax.
  pose proof (strptime_range _ _ Hs) as Hrange.
  unfold Doi.get_week_ranges. rewrite Hs, He. simpl.
  rewrite length_fmap. apply week_loop_length; [lia|done].
Qed.

(** X5: with the end date 9999-12-31 and an earlier start date at a number
    of days from it that is not a multiple of seven, the iteration ends
    with the OverflowError of the date arithmetic. *)
Theorem get_week_ranges_overflow start_date start :
  strptime start_date = Some start ->
  start < MAXORDINAL ->
  (MAXORDINAL - start) mod 7 <> 0 ->
  stopped (Doi.get_week_ranges start_date "9999-12-31") = Some OverflowError.
Proof.
  intros Hs Hlt Hmod.
  assert (He : strptime "9999-12-31" = Some MAXORDINAL)
    by (vm_compute; reflexivity).
  rewrite (get_week_ranges_stopped _ _ _ _ Hs He).
  pose proof (strptime_range _ _ Hs) as Hrange.
  apply week_loop_overflow; [lia|done].
Qed.

Lemma split_dash_year_digits y rest :
  split_dash (year_digits y +:+ "-" +:+ rest) = Some (year_digits y, rest).
Proof.
  unfold year_digits.
  destruct (digit_char_spec (y / 100)) as (_ & _ & H2).
  destruct (digit_char_spec (y / 10)) as (_ & _ & H3).
  destruct (digit_char_spec y) as (_ & _ & H4).
  destruct (y <? 10); [simpl; by rewrite H4|].
  destruct (y <? 100); [unfold pad2; simpl; by rewrite H3, H4|].
  destruct (y <? 1000); [unfold pad2; simpl; by rewrite H2, H3, H4|].
  apply split_dash_pad4.
Qed.

Lemma parse_year_short y : y < 1000 -> parse_year (year_digits y) = None.
Proof.
  intros Hy. unfold year_digits.
  destruct (y <? 10); [done|]. destruct (y <? 100); [done|].
  destruct (y <? 1000) eqn:E; [done|]. apply Z.ltb_ge in E. lia.
Qed.

(** The text of a day before the year 1000 is not read back. *)
Lemma strptime_strftime_short n :
  MINORDINAL <= n < YEAR_1000 -> strptime (strftime n) = None.
Proof.
  intros Hn.
  assert (Hn' : MINORDINAL <= n <= MAXORDINAL)
    by (revert Hn; change YEAR_1000 with 364878; unfold MAXORDINAL; lia).
  destruct (ord2ymd_spec n Hn') as (y & m & d & Hymd & Hy & Hm & Hd & Hord).
  assert (Hy3 : y < 1000).
  { destruct (Z_lt_dec y 1000) as [|Hge]; [done|].
    assert (YEAR_1000 <= ymd2ord y m d); [|lia].
    change YEAR_1000 with 364878.
    unfold ymd2ord, days_before_year, days_before_month. cbn zeta.
    assert (0 <= DAYS_BEFORE_MONTH m
                 + (if (2 <? m) && is_leap y then 1 else 0)).
    { assert (Hm' : m = 1 \/ m = 2 \/ m = 3 \/ m = 4 \/ m = 5 \/ m = 6
                    \/ m = 7 \/ m = 8 \/ m = 9 \/ m = 10 \/ m = 11
                    \/ m = 12) by lia.
      repeat destruct Hm' as [-> | Hm']; try subst m;
        destruct (is_leap y); simpl; lia. }
    Z.div_mod_to_equations. lia. }
  unfold strftime. rewrite Hymd.
  unfold strptime. rewrite split_dash_year_digits. cbn [mbind option_bind].
  destruct (split_dash _) as [[ms ds]|]; [|done]. cbn [mbind option_bind].
  by rewrite parse_year_short.
Qed.

(** X19: for a start date before the year 1000 and a later end date, a
    first range is yielded and its start is not a date [strptime] reads:
    [strftime] writes the year without padding, with fewer than the four
    digits [%Y] needs. *)
Theorem get_week_ranges_year_below_1000 start_date end_date start end_ :
  strptime start_date = Some start -> strptime end_date = Some end_ ->
  start < end_ -> start < YEAR_1000 ->
  exists r rest,
    yielded (Doi.get_week_ranges start_date end_date) = r :: rest
    /\ strptime r.1 = None.
Proof.
  intros Hs He Hlt Hy.
  pose proof (strptime_range _ _ Hs) as Hrange.
  unfold Doi.get_week_ranges. rewrite Hs, He. simpl.
  rewrite week_loop_unfold. destruct (decide (start < end_)); [|lia].
  rewrite add_days_in_range
    by (revert Hy; change YEAR_1000 with 364878; unfold MAXORDINAL in *;
        unfold MINORDINAL in *; lia).
  pose proof (strptime_range _ _ He) as Hrange_e.
  destruct (add_days _ 1) as [next|e]; simpl.
  - eexists _, _. split; [reflexivity|]. simpl.
    apply strptime_strftime_short. lia.
  - eexists _, _. split; [reflexivity|]. simpl.
    apply strptime_strftime_short. lia.
Qed.

Lemma get_week_ranges_ranges_within_witness :
  exists rs,
    parse_ranges (yielded (Doi.get_week_ranges "2023-10-01" "2023-10-14"))
    = Some rs
    /\ Forall (fun r => 738794 <= r.1 /\ r.1 <= r.2 /\ r.2 <= r.1 + 6
                        /\ r.2 <= 738807) rs.
Proof.
  apply (get_week_ranges_ranges_within "2023-10-01" "2023-10-14");
    [reflexivity | reflexivity | vm_compute; discriminate].
Defined.

Lemma get_week_ranges_contiguous_witness :
  exists rs,
    parse_ranges (yielded (Doi.get_week_ranges "2023-10-01" "2023-10-14"))
    = Some rs
    /\ contiguous_from 738794 rs
    /\ full_weeks_but_last rs.
Proof.
  apply (get_week_ranges_contiguous "2023-10-01" "2023-10-14" 738794 738807);
    [reflexivity | reflexivity | vm_compute; discriminate].
Defined.

Lemma get_week_ranges_covered_days_witness :
  stopped (Doi.get_week_ranges "2023-10-01" "2023-10-14") = None
  /\ exists rs,
      parse_ranges (yielded (Doi.get_week_ranges "2023-10-01" "2023-10-14"))
      = Some rs
      /\ covered_days rs
         = seqZ 738794 (if (738807 - 738794) mod 7 =? 0
                        then 738807 - 738794 else 738807 - 738794 + 1).
Proof.
  apply (get_week_ranges_covered_days "2023-10-01" "2023-10-14");
    [reflexivity | reflexivity | vm_compute; discriminate
     | unfold MAXORDINAL; lia].
Defined.

Lemma get_week_ranges_count_witness :
  length (yielded (Doi.get_week_ranges "2023-10-01" "2023-10-14"))
  = Z.to_nat ((738807 - 738794 + 6) / 7).
Proof.
  apply (get_week_ranges_count "2023-10-01" "2023-10-14");
    [reflexivity | reflexivity | unfold MAXORDINAL; lia].
Defined.

Lemma get_week_ranges_year_below_1000_witness :
  exists r rest,
    yielded (Doi.get_week_ranges "0999-12-28" "1000-01-03") = r :: rest
    /\ strptime r.1 = None.
Proof.
  apply (get_week_ranges_year_below_1000 "0999-12-28" "1000-01-03"
           364874 364880);
    [reflexivity | reflexivity | lia | vm_compute; reflexivity].
Defined.

Lemma get_week_ranges_overflow_witness :
  stopped (Doi.get_week_ranges "9999-12-20" "9999-12-31")
  = Some OverflowError.
Proof.
  apply (get_week_ranges_overflow "9999-12-20" 3652048);
    [reflexivity | unfold MAXORDINAL; lia | vm_compute; discriminate].
Defined.

(** ** The fetchers, page by page *)

Lemma page_requests_one p first : page_requests p first 1 = [set_page p first].
Proof. reflexivity. Qed.

Lemma page_requests_S p first (k : nat) :
  page_requests p first (Z.of_nat (S k))
  = set_page p first :: page_requests p (first + 1) (Z.of_nat k).
Proof.
  rewrite page_requests_cons by lia. do 2 f_equal. lia.
Qed.

Lemma seqZ_S_cons first (k : nat) :
  seqZ first (Z.of_nat (S k)) = first :: seqZ (first + 1) (Z.of_nat k).
Proof.
  rewrite seqZ_cons by lia. f_equal. f_equal; lia.
Qed.

Lemma ees_fetch_loop_S fuel up p page acc total w :
  Ees.fetch_loop (S fuel) up p page acc total w
  = match up (set_page p page) with
    | RequestException => Some (Returned acc, post (set_page p page) w)
    | Response status_code json =>
        if negb (status_code =? 200)
        then Some (Returned acc, post (set_page p page) w)
        else
          match json with
          | NotJSON => Some (Returned acc, post (set_page p page) w)
          | NotObject =>
              Some (Raised AttributeError, post (set_page p page) w)
          | NoResults => Some (Returned acc, post (set_page p page) w)
          | Results [] => Some (Returned acc, post (set_page p page) w)
          | Results results =>
              if Z.of_nat (length results) <? limit p
              then Some (Returned (acc ++ results),
                         post (set_page p page) w)
              else Ees.fetch_loop fuel up p (page + 1) (acc ++ results)
                                  (total + Z.of_nat (length results))
                                  (post (set_page p page) w)
          end
    end.
Proof.
  simpl. destruct (up (set_page p page)) as [|status [| | |[|r rs]]]; try done.
  destruct (negb _); [done|]. simpl limit. destruct (_ <? _); [done|].
  apply ees_fetch_loop_payload.
Qed.

(** Every finished run of the loop: [k] pages served in full, then one
    more request that ended the loop. *)
Lemma doi_fetch_loop_trace up p fuel :
  forall page acc w res w',
    Doi.fetch_loop fuel up p page acc w = Some (res, w') ->
    exists k : nat,
      w' = posted (page_requests p page (Z.of_nat (S k))) w
      /\ (forall i, page <= i < page + Z.of_nat k ->
                    exists rs, serves up p i rs
                               /\ limit p <= Z.of_nat (length rs))
      /\ match res with
         | Returned l =>
             l = acc ++ mjoin (page_results up p
                                 <$> seqZ page (Z.of_nat (S k)))
         | Raised err =>
             (err = KeyError
              /\ up (set_page p (page + Z.of_nat k)) = Response 200 NoResults)
             \/ (err = TypeError
                 /\ up (set_page p (page + Z.of_nat k))
                    = Response 200 NotObject)
         end.
Proof.
  induction fuel as [|fuel IH]; intros page acc w res w' Hrun; [done|].
  rewrite doi_fetch_loop_S in Hrun.
  assert (Hstop : forall l,
             page_results up p page = l ->
             Some (Returned (acc ++ l), post (set_page p page) w)
             = Some (res, w') ->
             exists k : nat,
               w' = posted (page_requests p page (Z.of_nat (S k))) w
               /\ (forall i, page <= i < page + Z.of_nat k ->
                             exists rs, serves up p i rs
                                        /\ limit p <= Z.of_nat (length rs))
               /\ match res with
                  | Returned l =>
                      l = acc ++ mjoin (page_results up p
                                          <$> seqZ page (Z.of_nat (S k)))
                  | Raised err =>
                      (err = KeyError
                       /\ up (set_page p (page + Z.of_nat k))
                          = Response 200 NoResults)
                      \/ (err = TypeError
                          /\ up (set_page p (page + Z.of_nat k))
                             = Response 200 NotObject)
                  end).
  { intros l Hl [= <- <-]. exists 0%nat. split; [done|]. split; [intros; lia|].
    rewrite seqZ_S_cons. simpl. by rewrite Hl, app_nil_r. }
  unfold page_results in Hstop.
  destruct (up (set_page p page)) as [|status body] eqn:Hup.
  { apply (Hstop []); [done|]. by rewrite app_nil_r. }
  destruct (status =? 200) eqn:Hstatus; simpl negb in Hrun; cbv iota in Hrun.
  2:{ apply (Hstop []); [by destruct body|]. by rewrite app_nil_r. }
  apply Z.eqb_eq in Hstatus. subst status.
  destruct body as [| | |[|r rs]].
  { apply (Hstop []); [done|]. by rewrite app_nil_r. }
  { injection Hrun as <- <-. exists 0%nat. split; [done|].
    split; [intros; lia|]. right. split; [done|]. by rewrite Z.add_0_r. }
  { injection Hrun as <- <-. exists 0%nat. split; [done|].
    split; [intros; lia|]. left. split; [done|]. by rewrite Z.add_0_r. }
  { apply (Hstop []); [done|]. by rewrite app_nil_r. }
  destruct (Z.of_nat (length (r :: rs)) <? limit p) eqn:Hshort.
  { by apply (Hstop (r :: rs)). }
  apply Z.ltb_ge in Hshort.
  destruct (IH _ _ _ _ _ Hrun) as (k & Hw & Hfull & Hres).
  exists (S k). split; [|split].
  - rewrite Hw, post_posted, posted_posted.
    by rewrite (page_requests_S p page (S k)).
  - intros i Hi. destruct (decide (i = page)) as [->|Hne].
    + exists (r :: rs). split; [exact Hup|exact Hshort].
    + apply Hfull. lia.
  - destruct res as [l|err].
    + rewrite Hres, (seqZ_S_cons page (S k)), fmap_cons. simpl mjoin.
      rewrite (page_results_served up p page (r :: rs)) by exact Hup.
      by rewrite <- app_assoc.
    + replace (page + Z.of_nat (S k)) with (page + 1 + Z.of_nat k) by lia.
      exact Hres.
Qed.

Lemma ees_fetch_loop_trace up p fuel :
  forall page acc total w res w',
    Ees.fetch_loop fuel up p page acc total w = Some (res, w') ->
    exists k : nat,
      w' = posted (page_requests p page (Z.of_nat (S k))) w
      /\ (forall i, page <= i < page + Z.of_nat k ->
                    exists rs, serves up p i rs
                               /\ limit p <= Z.of_nat (length rs))
      /\ match res with
         | Returned l =>
             l = acc ++ mjoin (page_results up p
                                 <$> seqZ page (Z.of_nat (S k)))
         | Raised err =>
             err = AttributeError
             /\ up (set_page p (page + Z.of_nat k)) = Response 200 NotObject
         end.
Proof.
  induction fuel as [|fuel IH]; intros page acc total w res w' Hrun; [done|].
  rewrite ees_fetch_loop_S in Hrun.
  assert (Hstop : forall l0,
             page_results up p page = l0 ->
             Some (Returned (acc ++ l0), post (set_page p page) w)
             = Some (res, w') ->
             exists k : nat,
               w' = posted (page_requests p page (Z.of_nat (S k))) w
               /\ (forall i, page <= i < page + Z.of_nat k ->
                             exists rs, serves up p i rs
                                        /\ limit p <= Z.of_nat (length rs))
               /\ match res with
                  | Returned l =>
                      l = acc ++ mjoin (page_results up p
                                          <$> seqZ page (Z.of_nat (S k)))
                  | Raised err =>
                      err = AttributeError
                      /\ up (set_page p (page + Z.of_nat k))
                         = Response 200 NotObject
                  end).
  { intros l0 Hl [= <- <-]. exists 0%nat. split; [done|]. split; [intros; lia|].
    rewrite seqZ_S_cons. simpl. by rewrite Hl, app_nil_r. }
  unfold page_results in Hstop.
  destruct (up (set_page p page)) as [|status body] eqn:Hup.
  { apply (Hstop []); [done|]. by rewrite app_nil_r. }
  destruct (status =? 200) eqn:Hstatus; simpl negb in Hrun; cbv iota in Hrun.
  2:{ apply (Hstop []); [by destruct body|]. by rewrite app_nil_r. }
  apply Z.eqb_eq in Hstatus. subst status.
  destruct body as [| | |[|r rs]].
  { apply (Hstop []); [done|]. by rewrite app_nil_r. }
  { injection Hrun as <- <-. exists 0%nat. split; [done|].
    split; [intros; lia|]. split; [done|]. by rewrite Z.add_0_r. }
  { apply (Hstop []); [done|]. by rewrite app_nil_r. }
  { apply (Hstop []); [done|]. by rewrite app_nil_r. }
  destruct (Z.of_nat (length (r :: rs)) <? limit p) eqn:Hshort.
  { by apply (Hstop (r :: rs)). }
  apply Z.ltb_ge in Hshort.
  destruct (IH _ _ _ _ _ _ Hrun) as (k & Hw & Hfull & Hres).
  exists (S k). split; [|split].
  - rewrite Hw, post_posted, posted_posted.
    by rewrite (page_requests_S p page (S k)).
  - intros i Hi. destruct (decide (i = page)) as [->|Hne].
    + exists (r :: rs). split; [exact Hup|exact Hshort].
    + apply Hfull. lia.
  - destruct res as [l|err].
    + rewrite Hres, (seqZ_S_cons page (S k)), fmap_cons. simpl mjoin.
      rewrite (page_results_served up p page (r :: rs)) by exact Hup.
      by rewrite <- app_assoc.
    + replace (page + Z.of_nat (S k)) with (page + 1 + Z.of_nat k) by lia.
      exact Hres.
Qed.

(** X6: every finished [fetch_award_history]: the requests are for the pages
    1 .. k in order, each once, every page before the last carried at least
    100 records, and no file is touched. A returned list is the records of
    the requested pages in page order. An exception is a KeyError or a
    TypeError, and then the last request was answered with status 200 and
    a body that holds no result list. *)
Theorem fetch_award_history_trace up start_date end_date fuel w res w' :
  Doi.fetch_award_history fuel up start_date end_date w = Some (res, w') ->
  let p := Doi.payload start_date end_date in
  exists k : nat,
    (1 <= k)%nat
    /\ requests w' = requests w ++ page_requests p 1 (Z.of_nat k)
    /\ files w' = files w
    /\ (forall i, 1 <= i < Z.of_nat k ->
                  exists rs, serves up p i rs /\ (100 <= length rs)%nat)
    /\ match res with
       | Returned l =>
           l = mjoin (page_results up p <$> seqZ 1 (Z.of_nat k))
       | Raised err =>
           (err = KeyError \/ err = TypeError)
           /\ exists json,
               up (set_page p (Z.of_nat k)) = Response 200 json
               /\ forall rs, json <> Results rs
       end.
Proof.
  intros Hrun p. unfold Doi.fetch_award_history in Hrun.
  apply doi_fetch_loop_trace in Hrun as (k & -> & Hfull & Hres).
  exists (S k). split; [lia|]. split; [done|]. split; [done|]. split.
  - intros i Hi. destruct (Hfull i) as (rs & Hs & Hl); [lia|].
    exists rs. split; [done|]. simpl in Hl. lia.
  - destruct res as [l|err]; [done|].
    replace (Z.of_nat (S k)) with (1 + Z.of_nat k) by lia.
    destruct Hres as [[-> Hlast]|[-> Hlast]]; (split; [by auto|]);
      eexists; (split; [exact Hlast|done]).
Qed.

(** X7: every [fetch_personnel_spending] that returns: the requests are for
    the pages 1 .. k in order, each once, every page before the last
    carried at least 100 records, no file is touched, and the returned list
    is the records of the requested pages in page order. *)
Theorem fetch_personnel_spending_trace up start_date end_date fuel w l w' :
  Ees.fetch_personnel_spending fuel up start_date end_date w
  = Some (Returned l, w') ->
  let p := Ees.payload start_date end_date in
  exists k : nat,
    (1 <= k)%nat
    /\ requests w' = requests w ++ page_requests p 1 (Z.of_nat k)
    /\ files w' = files w
    /\ (forall i, 1 <= i < Z.of_nat k ->
                  exists rs, serves up p i rs /\ (100 <= length rs)%nat)
    /\ l = mjoin (page_results up p <$> seqZ 1 (Z.of_nat k)).
Proof.
  intros Hrun p. unfold Ees.fetch_personnel_spending in Hrun.
  apply ees_fetch_loop_trace in Hrun as (k & -> & Hfull & Hres).
  exists (S k). split; [lia|]. split; [done|]. split; [done|]. split.
  - intros i Hi. destruct (Hfull i) as (rs & Hs & Hl); [lia|].
    exists rs. split; [done|]. simpl in Hl. lia.
  - done.
Qed.

Lemma endless_pages up p (n : nat) :
  endless up p ->
  forall i, 1 <= i < 1 + Z.of_nat n ->
            serves up p i (page_results up p i)
            /\ 100 <= Z.of_nat (length (page_results up p i))
            /\ page_results up p i <> [].
Proof.
  intros Hend i Hi. destruct (Hend i) as (rs & Hs & Hl); [lia|].
  rewrite (page_results_served up p i rs Hs).
  split; [done|]. split; [lia|]. intros ->. simpl in Hl. lia.
Qed.

(** X8: there is no cap on the pages: while every page carries at least
    100 records neither fetcher returns, whatever the fuel. *)
Theorem fetchers_run_on_while_pages_are_full up start_date end_date fuel w :
  (endless up (Doi.payload start_date end_date) ->
   Doi.fetch_award_history fuel up start_date end_date w = None)
  /\ (endless up (Ees.payload start_date end_date) ->
      Ees.fetch_personnel_spending fuel up start_date end_date w = None).
Proof.
  split; intros Hend.
  - unfold Doi.fetch_award_history.
    replace fuel with (fuel + 0)%nat by lia.
    rewrite (doi_fetch_loop_full_pages up _
               (page_results up (Doi.payload start_date end_date)) fuel).
    + reflexivity.
    + apply endless_pages, Hend.
  - unfold Ees.fetch_personnel_spending.
    replace fuel with (fuel + 0)%nat by lia.
    edestruct (ees_fetch_loop_full_pages up (Ees.payload start_date end_date)
                 (page_results up (Ees.payload start_date end_date))
                 fuel 0%nat 1 [] 0 w) as [total' ->].
    + apply endless_pages, Hend.
    + reflexivity.
Qed.

Lemma serves_full_pages_loop up p n pages :
  limit p = 100 ->
  serves_full_pages up p n pages ->
  forall i, 1 <= i < 1 + Z.of_nat n ->
            serves up p i (pages i)
            /\ limit p <= Z.of_nat (length (pages i)) /\ pages i <> [].
Proof.
  intros Hlim Hfull i Hi. destruct (Hfull i) as [Hs Hl]; [lia|].
  split; [done|]. split; [lia|]. intros Hnil. rewrite Hnil in Hl.
  simpl in Hl. lia.
Qed.

(** X9: after [n] pages of at least 100 records, a 200 answer without
    'results' makes [fetch_award_history] raise KeyError: the records of
    the [n] pages are not returned. *)
Theorem fetch_award_history_missing_results
    up start_date end_date (n : nat) pages fuel w :
  let p := Doi.payload start_date end_date in
  (n < fuel)%nat ->
  serves_full_pages up p n pages ->
  up (set_page p (Z.of_nat n + 1)) = Response 200 NoResults ->
  Doi.fetch_award_history fuel up start_date end_date w
  = Some (Raised KeyError, posted (page_requests p 1 (Z.of_nat n + 1)) w).
Proof.
  intros p Hfuel Hfull Hlast.
  destruct (Nat.le_exists_sub (S n) fuel) as (rest & -> & _); [lia|].
  replace (rest + S n)%nat with (n + S rest)%nat by lia.
  unfold Doi.fetch_award_history.
  rewrite (doi_fetch_loop_full_pages up _ pages n)
    by (by apply serves_full_pages_loop).
  rewrite doi_fetch_loop_S.
  replace (1 + Z.of_nat n) with (Z.of_nat n + 1) by lia.
  fold p. rewrite Hlast. simpl.
  rewrite post_posted, posted_posted. unfold page_requests.
  rewrite seqZ_snoc, fmap_app by lia. simpl.
  by replace (1 + Z.of_nat n) with (Z.of_nat n + 1) by lia.
Qed.

(** After [n] pages of at least 100 records, an answer without records
    ends [fetch_personnel_spending] with the records of the [n] pages. *)
Lemma ees_fetch_stops_without_records
    up start_date end_date (n : nat) pages fuel w :
  let p := Ees.payload start_date end_date in
  (n < fuel)%nat ->
  serves_full_pages up p n pages ->
  no_records (up (set_page p (Z.of_nat n + 1))) = true ->
  Ees.fetch_personnel_spending fuel up start_date end_date w
  = Some (Returned (mjoin (pages <$> seqZ 1 (Z.of_nat n))),
          posted (page_requests p 1 (Z.of_nat n + 1)) w).
Proof.
  intros p Hfuel Hfull Hlast.
  destruct (Nat.le_exists_sub (S n) fuel) as (rest & -> & _); [lia|].
  replace (rest + S n)%nat with (n + S rest)%nat by lia.
  unfold Ees.fetch_personnel_spending.
  edestruct (ees_fetch_loop_full_pages up (Ees.payload start_date end_date)
               pages n (S rest) 1 [] 0 w) as [total' ->].
  { by apply serves_full_pages_loop. }
  rewrite ees_fetch_loop_S.
  replace (1 + Z.of_nat n) with (Z.of_nat n + 1) by lia.
  fold p. unfold no_records in Hlast.
  assert (Hreq : posted [set_page p (Z.of_nat n + 1)]
                        (posted (page_requests p 1 (Z.of_nat n)) w)
                 = posted (page_requests p 1 (Z.of_nat n + 1)) w).
  { rewrite posted_posted. unfold page_requests.
    rewrite seqZ_snoc, fmap_app by lia. simpl.
    by replace (1 + Z.of_nat n) with (Z.of_nat n + 1) by lia. }
  rewrite post_posted, Hreq.
  destruct (up (set_page p (Z.of_nat n + 1))) as [|status body]; [done|].
  destruct (status =? 200) eqn:E; [|done]. simpl negb. cbv iota.
  destruct body as [| | |[|r rs]]; done.
Qed.

(** X10: after [n] pages of at least 100 records, an answer without
    records (an exception, a status other than 200, a body that is not
    JSON or is an object without 'results', an empty list) ends
    [fetch_personnel_spending] normally with the records of the [n] pages,
    after exactly the requests for the pages 1 .. n+1. *)
Theorem fetch_personnel_spending_returns_accumulated
    up start_date end_date (n : nat) pages fuel w :
  let p := Ees.payload start_date end_date in
  (n < fuel)%nat ->
  serves_full_pages up p n pages ->
  no_records (up (set_page p (Z.of_nat n + 1))) = true ->
  Ees.fetch_personnel_spending fuel up start_date end_date w
  = Some (Returned (mjoin (pages <$> seqZ 1 (Z.of_nat n))),
          posted (page_requests p 1 (Z.of_nat n + 1)) w).
Proof. apply ees_fetch_stops_without_records. Qed.

(** After [n] pages of at least 100 records, a 200 answer that is JSON but
    not an object ends [fetch_personnel_spending] with the AttributeError
    of [data.get]. *)
Lemma ees_fetch_not_an_object
    up start_date end_date (n : nat) pages fuel w :
  let p := Ees.payload start_date end_date in
  (n < fuel)%nat ->
  serves_full_pages up p n pages ->
  up (set_page p (Z.of_nat n + 1)) = Response 200 NotObject ->
  Ees.fetch_personnel_spending fuel up start_date end_date w
  = Some (Raised AttributeError,
          posted (page_requests p 1 (Z.of_nat n + 1)) w).
Proof.
  intros p Hfuel Hfull Hlast.
  destruct (Nat.le_exists_sub (S n) fuel) as (rest & -> & _); [lia|].
  replace (rest + S n)%nat with (n + S rest)%nat by lia.
  unfold Ees.fetch_personnel_spending.
  edestruct (ees_fetch_loop_full_pages up (Ees.payload start_date end_date)
               pages n (S rest) 1 [] 0 w) as [total' ->].
  { by apply serves_full_pages_loop. }
  rewrite ees_fetch_loop_S.
  replace (1 + Z.of_nat n) with (Z.of_nat n + 1) by lia.
  fold p. rewrite Hlast. simpl.
  rewrite post_posted, posted_posted. unfold page_requests.
  rewrite seqZ_snoc, fmap_app by lia. simpl.
  by replace (1 + Z.of_nat n) with (Z.of_nat n + 1) by lia.
Qed.

(** X20: after [n] pages of at least 100 records, a 200 answer whose body
    is JSON but not an object (null, a list, a string, a number) makes
    both fetchers raise, [fetch_award_history] the TypeError of
    [data['results']] and [fetch_personnel_spending] the AttributeError of
    [data.get]: neither is a RequestException, so the records of the [n]
    pages are not returned. *)
Theorem fetchers_body_not_an_object
    up start_date end_date (n : nat) pages fuel w :
  (n < fuel)%nat ->
  (let p := Doi.payload start_date end_date in
   serves_full_pages up p n pages ->
   up (set_page p (Z.of_nat n + 1)) = Response 200 NotObject ->
   Doi.fetch_award_history fuel up start_date end_date w
   = Some (Raised TypeError, posted (page_requests p 1 (Z.of_nat n + 1)) w))
  /\
  (let p := Ees.payload start_date end_date in
   serves_full_pages up p n pages ->
   up (set_page p (Z.of_nat n + 1)) = Response 200 NotObject ->
   Ees.fetch_personnel_spending fuel up start_date end_date w
   = Some (Raised AttributeError,
           posted (page_requests p 1 (Z.of_nat n + 1)) w)).
Proof.
  intros Hfuel.
  destruct (Nat.le_exists_sub (S n) fuel) as (rest & -> & _); [lia|].
  replace (rest + S n)%nat with (n + S rest)%nat by lia.
  split; intros p Hfull Hlast.
  - unfold Doi.fetch_award_history.
    rewrite (doi_fetch_loop_full_pages up _ pages n)
      by (by apply serves_full_pages_loop).
    rewrite doi_fetch_loop_S.
    replace (1 + Z.of_nat n) with (Z.of_nat n + 1) by lia.
    fold p. rewrite Hlast. simpl.
    rewrite post_posted, posted_posted. unfold page_requests.
    rewrite seqZ_snoc, fmap_app by lia. simpl.
    by replace (1 + Z.of_nat n) with (Z.of_nat n + 1) by lia.
  - apply (ees_fetch_not_an_object up _ _ n pages); [lia|done|done].
Qed.

(** ** The tables of [process_results] *)

Lemma elem_of_add_labels k seen new :
  k ∈ add_labels seen new <-> k ∈ seen \/ k ∈ new.
Proof.
  unfold add_labels. revert seen.
  induction new as [|x new IH]; intros seen; simpl.
  - set_solver.
  - rewrite IH. case_bool_decide; set_solver.
Qed.

Lemma elem_of_fold_labels k (data : list record) seen :
  k ∈ fold_left (fun acc r => add_labels acc (r.*1)) data seen
  <-> k ∈ seen \/ exists r, r ∈ data /\ k ∈ r.*1.
Proof.
  revert seen. induction data as [|r data IH]; intros seen; simpl.
  - set_solver.
  - rewrite IH, elem_of_add_labels. set_solver.
Qed.

Lemma elem_of_record_labels k data :
  k ∈ record_labels data <-> exists r, r ∈ data /\ k ∈ r.*1.
Proof. unfold record_labels. rewrite elem_of_fold_labels. set_solver. Qed.

Lemma assoc_labelled {A} (f : string -> A) k names :
  assoc k ((fun k => (k, f k)) <$> names)
  = if bool_decide (k ∈ names) then Some (f k) else None.
Proof.
  induction names as [|x names IH]; [done|].
  rewrite fmap_cons. cbn [assoc].
  destruct (String.eqb k x) eqn:E.
  - apply String.eqb_eq in E. subst x.
    rewrite bool_decide_eq_true_2 by set_solver. done.
  - apply String.eqb_neq in E. rewrite IH.
    repeat case_bool_decide; set_solver.
Qed.

Lemma elem_of_assoc {A} k (cols : list (string * A)) :
  k ∈ cols.*1 <-> is_Some (assoc k cols).
Proof.
  induction cols as [|[x c] cols IH]; simpl.
  - split; [set_solver|]. intros [? ?]. done.
  - destruct (String.eqb k x) eqn:E.
    + apply String.eqb_eq in E. subst x. split; [by eexists|set_solver].
    + apply String.eqb_neq in E. rewrite <- IH. set_solver.
Qed.

Lemma has_column_assoc k df :
  has_column k df = bool_decide (is_Some (assoc k (columns df))).
Proof. apply bool_decide_ext, elem_of_assoc. Qed.


Lemma has_column_from_records k data :
  has_column k (from_records data) = bool_decide (k ∈ record_labels data).
Proof.
  rewrite has_column_assoc. unfold from_records. simpl.
  rewrite (assoc_labelled (fun k => record_get k <$> data)).
  fold (record_labels data). apply bool_decide_ext. split.
  - intros [x Hx]. by case_bool_decide.
  - intros H. by rewrite bool_decide_eq_true_2.
Qed.

Lemma has_column_set_column_ne name name' col df :
  name <> name' ->
  has_column name' (set_column name col df) = has_column name' df.
Proof.
  intros Hne. rewrite !has_column_assoc. unfold set_column. simpl.
  by rewrite assoc_replace_column_ne.
Qed.












Lemma has_column_set_column_eq name col df :
  has_column name (set_column name col df) = true.
Proof.
  rewrite has_column_assoc. unfold set_column. simpl.
  rewrite assoc_replace_column_eq. by apply bool_decide_eq_true_2.
Qed.

Lemma has_column_set_column_mono name k col df :
  has_column k df = true -> has_column k (set_column name col df) = true.
Proof.
  intros H. destruct (decide (name = k)) as [->|Hne].
  - apply has_column_set_column_eq.
  - by rewrite has_column_set_column_ne.
Qed.

Lemma action_date_step_keeps (td : list cell -> result (list cell)) df df1 :
  (if has_column "Action Date" df
   then action_date ← get_column "Action Date" df;
        action_date ← td action_date;
        Returned (set_column "Action Date" action_date df)
   else Returned df) = Returned df1 ->
  nrows df1 = nrows df
  /\ forall k, has_column k df = true -> has_column k df1 = true.
Proof.
  destruct (has_column "Action Date" df).
  - unfold mbind, result_bind.
    destruct (get_column "Action Date" df) as [col|]; [|done].
    destruct (td col) as [col'|]; [|done]. intros [= <-].
    split; [done|]. intros k Hk. by apply has_column_set_column_mono.
  - intros [= <-]. done.
Qed.

Lemma amount_step_keeps nos (fmt : cell -> cell) derived df df2 :
  (if has_column "Transaction Amount" df
   then amount ← get_column "Transaction Amount" df;
        amount ← to_numeric nos amount;
        let df := set_column "Transaction Amount" amount df in
        amount ← get_column "Transaction Amount" df;
        Returned (set_column derived (fmt <$> amount) df)
   else Returned df) = Returned df2 ->
  nrows df2 = nrows df
  /\ (forall k, has_column k df = true -> has_column k df2 = true)
  /\ (has_column "Transaction Amount" df = true ->
      has_column derived df2 = true).
Proof.
  destruct (has_column "Transaction Amount" df).
  - unfold mbind, result_bind.
    destruct (get_column "Transaction Amount" df) as [raw|]; [|done].
    destruct (to_numeric nos raw) as [amounts|]; [|done].
    cbv zeta. rewrite get_set_column_eq. intros [= <-].
    split; [done|]. split.
    + intros k Hk. by do 2 apply has_column_set_column_mono.
    + intros _. apply has_column_set_column_eq.
  - intros [= <-]. done.
Qed.

Lemma has_column_not_empty k df :
  has_column k df = true -> (0 < nrows df)%nat -> empty df = false.
Proof.
  unfold has_column, column_names, empty. intros Hk Hn.
  apply bool_decide_eq_true_1 in Hk.
  destruct (columns df) as [|c cols]; [by apply elem_of_nil in Hk|].
  simpl. destruct (nrows df); [lia|done].
Qed.

Lemma doi_process_results_keeps
    (td : list cell -> result (list cell)) (nos : string -> option Q)
    (fa : Q -> string) data df :
  Doi.process_results td nos fa data = Returned df ->
  nrows df = length data
  /\ (forall r k, r ∈ data -> k ∈ r.*1 -> has_column k df = true)
  /\ (has_column "Transaction Amount" df = true ->
      has_column "Amount" df = true).
Proof.
  intros Hrun.
  unfold Doi.process_results in Hrun. destruct data as [|r0 data0].
  { injection Hrun as <-. split; [done|]. split; [|done].
    intros r k Hr. by apply elem_of_nil in Hr. }
  remember (r0 :: data0) as data eqn:Hdata. clear Hdata r0 data0.
  cbv zeta in Hrun. unfold mbind at 1, result_bind at 1 in Hrun.
  match type of Hrun with
  | match ?step with _ => _ end = _ => destruct step as [df1|] eqn:Hstep
  end; [|done].
  apply action_date_step_keeps in Hstep as [Hrows1 Hkeep1].
  pose proof Hrun as Hrun'.
  apply amount_step_keeps in Hrun as (Hrows2 & Hkeep2 & Hderived).
  split; [by rewrite Hrows2, Hrows1|]. split.
  - intros r k Hr Hk. apply Hkeep2, Hkeep1.
    rewrite has_column_from_records. apply bool_decide_eq_true_2.
    apply elem_of_record_labels. eauto.
  - intros Hta. apply Hderived.
    destruct (has_column "Transaction Amount" df1) eqn:E; [done|].
    injection Hrun' as <-. congruence.
Qed.

Lemma ees_process_results_keeps
    (td : list cell -> result (list cell)) (nos : string -> option Q)
    (fa : Q -> string) data df :
  Ees.process_results td nos fa data = Returned df ->
  nrows df = length data
  /\ (forall r k, r ∈ data -> k ∈ r.*1 -> has_column k df = true)
  /\ (has_column "Transaction Amount" df = true ->
      has_column "Formatted Amount" df = true).
Proof.
  intros Hrun.
  unfold Ees.process_results in Hrun. destruct data as [|r0 data0].
  { injection Hrun as <-. split; [done|]. split; [|done].
    intros r k Hr. by apply elem_of_nil in Hr. }
  remember (r0 :: data0) as data eqn:Hdata. clear Hdata r0 data0.
  cbv zeta in Hrun. unfold mbind at 1, result_bind at 1 in Hrun.
  match type of Hrun with
  | match ?step with _ => _ end = _ => destruct step as [df1|] eqn:Hstep
  end; [|done].
  apply action_date_step_keeps in Hstep as [Hrows1 Hkeep1].
  pose proof Hrun as Hrun'.
  apply amount_step_keeps in Hrun as (Hrows2 & Hkeep2 & Hderived).
  split; [by rewrite Hrows2, Hrows1|]. split.
  - intros r k Hr Hk. apply Hkeep2, Hkeep1.
    rewrite has_column_from_records. apply bool_decide_eq_true_2.
    apply elem_of_record_labels. eauto.
  - intros Hta. apply Hderived.
    destruct (has_column "Transaction Amount" df1) eqn:E; [done|].
    injection Hrun' as <-. congruence.
Qed.

(** X13: whenever [process_results] of either script returns, the table
    has one row per record and a column for every field of every record,
    and with a 'Transaction Amount' column it has the formatted column
    ('Amount', 'Formatted Amount'). *)
Theorem process_results_keeps_rows_and_fields
    (td : list cell -> result (list cell)) (nos : string -> option Q)
    (fa : Q -> string) data :
  (forall df,
      Doi.process_results td nos fa data = Returned df ->
      nrows df = length data
      /\ (forall r k, r ∈ data -> k ∈ r.*1 -> has_column k df = true)
      /\ (has_column "Transaction Amount" df = true ->
          has_column "Amount" df = true))
  /\ (forall df,
         Ees.process_results td nos fa data = Returned df ->
         nrows df = length data
         /\ (forall r k, r ∈ data -> k ∈ r.*1 -> has_column k df = true)
         /\ (has_column "Transaction Amount" df = true ->
             has_column "Formatted Amount" df = true)).
Proof.
  split; intros df Hrun.
  - exact (doi_process_results_keeps td nos fa data df Hrun).
  - exact (ees_process_results_keeps td nos fa data df Hrun).
Qed.

(** ** Runs of [main] of the award script *)

Section Runs.

Variable td : list cell -> result (list cell).

Variable nos : string -> option Q.

Variable fa : Q -> string.

Lemma process_weeks_app fuel up weeks1 weeks2 :
  forall all_data w,
    Doi.process_weeks td nos fa fuel up (weeks1 ++ weeks2) all_data w
    = match Doi.process_weeks td nos fa fuel up weeks1 all_data w with
      | Some (Returned all_data', w') =>
          Doi.process_weeks td nos fa fuel up weeks2 all_data' w'
      | other => other
      end.
Proof.
  induction weeks1 as [|[n [ws we]] weeks1 IH]; intros all_data w; [done|].
  simpl.
  destruct (Doi.fetch_award_history fuel up ws we w) as [[[data|e] w1]|];
    [|done..].
  destruct data as [|r data]; [apply IH|].
  destruct (Doi.process_results td nos fa (r :: data)) as [df|e]; [|done].
  destruct (empty df); apply IH.
Qed.

(** The loop over chunks that all complete, with the requests it posts. *)
Lemma process_weeks_requests fuel up weeks :
  forall all_data w,
    forallb (fun nw => week_completes td nos fa fuel up nw.2) weeks = true ->
    Doi.process_weeks td nos fa fuel up weeks all_data w
    = Some (Returned (all_data ++ (week_files td nos fa fuel up weeks).*2),
            {| requests := requests w
                           ++ mjoin (week_requests fuel up <$> weeks.*2);
               files := files w ++ week_files td nos fa fuel up weeks |}).
Proof.
  induction weeks as [|[week_num [week_start week_end]] weeks IH];
    intros all_data w Hall.
  - simpl. rewrite !app_nil_r. by destruct w.
  - simpl in Hall. apply andb_prop in Hall as [Hweek Hall].
    unfold week_completes, week_files, week_requests in *.
    rewrite !fmap_cons. simpl omap. simpl mjoin.
    unfold week_table in *. simpl in Hweek |- *.
    rewrite fetch_award_history_world.
    destruct (Doi.fetch_award_history fuel up week_start week_end world0)
      as [[[data|e] w1]|]; [|done..].
    destruct data as [|r data].
    { rewrite (IH all_data (posted (requests w1) w) Hall). simpl.
      by rewrite <- app_assoc. }
    destruct (Doi.process_results _ _ _ (r :: data)) as [df|e]; [|done].
    destruct (empty df).
    { rewrite (IH all_data (posted (requests w1) w) Hall). simpl.
      by rewrite <- app_assoc. }
    rewrite (IH (all_data ++ [df])
                (to_csv (Doi.week_filename week_num) df
                        (posted (requests w1) w)) Hall).
    simpl. by rewrite <- !app_assoc.
Qed.

(** One chunk that raises ends the loop there. *)
Lemma process_weeks_raises fuel up n week rest all_data w e :
  week_table td nos fa fuel up week = Some (Raised e) ->
  Doi.process_weeks td nos fa fuel up ((n, week) :: rest) all_data w
  = Some (Raised e, posted (week_requests fuel up week) w).
Proof.
  destruct week as [ws we]. unfold week_table, week_requests. simpl.
  rewrite (fetch_award_history_world fuel up ws we w).
  destruct (Doi.fetch_award_history fuel up ws we world0)
    as [[[data|e'] w1]|]; simpl; [|by intros [= ->]|done].
  destruct data as [|r data]; [done|].
  destruct (Doi.process_results _ _ _ (r :: data)) as [df|e']; [done|].
  by intros [= ->].
Qed.

Lemma enumerate_app {A} (start : nat) (xs ys : list A) :
  enumerate start (xs ++ ys)
  = enumerate start xs ++ enumerate (start + length xs) ys.
Proof.
  revert start. induction xs as [|x xs IH]; intros start; simpl.
  - by rewrite Nat.add_0_r.
  - rewrite IH. do 3 f_equal. lia.
Qed.

Lemma enumerate_snd {A} (start : nat) (xs : list A) :
  (enumerate start xs).*2 = xs.
Proof.
  revert start. induction xs as [|x xs IH]; intros start; simpl; [done|].
  by rewrite IH.
Qed.

Lemma enumerate_fst {A} (start : nat) (xs : list A) :
  (enumerate start xs).*1 = seq start (length xs).
Proof.
  revert start. induction xs as [|x xs IH]; intros start; simpl; [done|].
  by rewrite IH.
Qed.

End Runs.

(** X14: a chunk that raises (the KeyError of its fetch, or an exception of
    the processing) ends [main] with that exception: the files of the
    earlier chunks stay written, the complete file is not written, and no
    request is posted for a later chunk. *)
Theorem main_stops_at_first_exception
    (td : list cell -> result (list cell)) (nos : string -> option Q)
    (fa : Q -> string) fuel up w (k : nat) week e :
  let weeks := yielded (Doi.get_week_ranges Doi.start_date Doi.end_date) in
  weeks !! k = Some week ->
  forallb (week_completes td nos fa fuel up) (take k weeks) = true ->
  week_table td nos fa fuel up week = Some (Raised e) ->
  Doi.main td nos fa fuel up w
  = Some (Some e,
          {| requests := requests w
                         ++ mjoin (week_requests fuel up
                                     <$> take (S k) weeks);
             files := files w
                      ++ week_files td nos fa fuel up
                                    (enumerate 1 (take k weeks)) |}).
Proof.
  intros weeks Hk Hbefore Hraise.
  assert (Hstop : stopped (Doi.get_week_ranges Doi.start_date Doi.end_date)
                  = None) by (vm_compute; reflexivity).
  unfold Doi.main. rewrite Hstop. fold weeks.
  rewrite <- (take_drop_middle weeks k week Hk) at 1.
  rewrite enumerate_app. simpl enumerate.
  rewrite process_weeks_app.
  rewrite process_weeks_requests by (by rewrite forallb_enumerate).
  rewrite (process_weeks_raises td nos fa fuel up _ week _ _ _ e Hraise).
  rewrite enumerate_snd. unfold posted. simpl.
  rewrite (take_S_r weeks k week Hk), fmap_app, join_app. simpl.
  by rewrite app_nil_r, app_assoc.
Qed.

Lemma process_weeks_paths td nos fa fuel up weeks :
  forall all_data w res w',
    Doi.process_weeks td nos fa fuel up weeks all_data w = Some (res, w') ->
    exists ks new,
      sublist ks (weeks.*1)
      /\ files w' = files w ++ new
      /\ new.*1 = Doi.week_filename <$> ks
      /\ (new = [] -> res = Returned all_data \/ exists e, res = Raised e).
Proof.
  induction weeks as [|[n [ws we]] weeks IH]; intros all_data w res w' Hrun.
  - injection Hrun as <- <-. exists [], []. rewrite app_nil_r. eauto.
  - simpl in Hrun. rewrite fetch_award_history_world in Hrun.
    destruct (Doi.fetch_award_history fuel up ws we world0)
      as [[[data|e] w1]|]; [| |done].
    2:{ injection Hrun as <- <-. exists [], []. simpl.
        rewrite app_nil_r. split; [apply sublist_nil_l|]. eauto. }
    assert (Hskip :
              Doi.process_weeks td nos fa fuel up weeks all_data
                                (posted (requests w1) w) = Some (res, w') ->
              exists ks new,
                sublist ks (((n, (ws, we)) :: weeks).*1)
                /\ files w' = files w ++ new
                /\ new.*1 = Doi.week_filename <$> ks
                /\ (new = [] ->
                    res = Returned all_data \/ exists e, res = Raised e)).
    { intros H. apply IH in H as (ks & new & Hsub & Hfiles & Hnames & Hres).
      exists ks, new. split; [by apply sublist_cons|]. done. }
    destruct data as [|r data]; [by apply Hskip|].
    destruct (Doi.process_results td nos fa (r :: data)) as [df|e].
    2:{ injection Hrun as <- <-. exists [], []. simpl.
        rewrite app_nil_r. split; [apply sublist_nil_l|]. eauto. }
    destruct (empty df); [by apply Hskip|].
    apply IH in Hrun as (ks & new & Hsub & Hfiles & Hnames & Hres).
    exists (n :: ks), ((Doi.week_filename n, df) :: new).
    split; [by apply sublist_skip|]. split.
    + rewrite Hfiles. simpl. by rewrite <- app_assoc.
    + split; [by rewrite !fmap_cons, Hnames|done].
Qed.

Lemma complete_filename_ne n : Doi.complete_filename <> Doi.week_filename n.
Proof.
  unfold Doi.complete_filename, Doi.week_filename. intros H.
  apply (inj (String.append _)) in H.
  apply (f_equal (String.get 12)) in H. lazy in H. discriminate.
Qed.

(** X15: the files a run of [main] writes are week files numbered within
    1 .. the number of chunks and, possibly, the complete file, and no path
    is written twice: a run never overwrites a file of its own. *)
Theorem main_writes_each_path_once
    (td : list cell -> result (list cell)) (nos : string -> option Q)
    (fa : Q -> string) fuel up w out w' :
  Doi.main td nos fa fuel up w = Some (out, w') ->
  exists new,
    files w' = files w ++ new
    /\ NoDup (new.*1)
    /\ Forall (fun path =>
                 path = Doi.complete_filename
                 \/ exists n : nat,
                     (1 <= n <= length (yielded (Doi.get_week_ranges
                                                   Doi.start_date
                                                   Doi.end_date)))%nat
                     /\ path = Doi.week_filename n) (new.*1).
Proof.
  intros Hrun.
  assert (Hstop : stopped (Doi.get_week_ranges Doi.start_date Doi.end_date)
                  = None) by (vm_compute; reflexivity).
  unfold Doi.main in Hrun. rewrite Hstop in Hrun.
  remember (yielded (Doi.get_week_ranges Doi.start_date Doi.end_date))
    as weeks eqn:Hweeks. clear Hweeks Hstop.
  destruct (Doi.process_weeks td nos fa fuel up (enumerate 1 weeks) [] w)
    as [[res w1]|] eqn:Hloop; [|done].
  apply process_weeks_paths in Hloop as (ks & new & Hsub & Hfiles & Hnames & _).
  rewrite enumerate_fst in Hsub.
  assert (Hks : NoDup ks) by (eapply sublist_NoDup; [apply NoDup_seq|exact Hsub]).
  assert (Hrange : forall n, n ∈ ks -> (1 <= n <= length weeks)%nat).
  { intros n Hn. apply sublist_submseteq in Hsub.
    pose proof (elem_of_submseteq _ _ _ Hn Hsub) as Hin.
    apply elem_of_seq in Hin. lia. }
  assert (Hweek : NoDup (new.*1)
                  /\ Forall (fun path =>
                               path = Doi.complete_filename
                               \/ exists n : nat,
                                   (1 <= n <= length weeks)%nat
                                   /\ path = Doi.week_filename n) (new.*1)).
  { rewrite Hnames. split.
    - apply NoDup_fmap_2_strong; [|done]. intros m n _ _. apply week_filename_inj.
    - apply Forall_fmap, Forall_forall. intros n Hn. right. exists n.
      split; [by apply Hrange|done]. }
  destruct Hweek as [Hnodup Hall].
  assert (Hnot : Doi.complete_filename ∉ new.*1).
  { rewrite Hnames. intros Hin. apply list_elem_of_fmap in Hin as (n & Hn & _).
    by apply complete_filename_ne in Hn. }
  destruct res as [all_data|e].
  - destruct all_data as [|df all_data].
    + injection Hrun as <- <-. by exists new.
    + injection Hrun as <- <-.
      exists (new ++ [(Doi.complete_filename, concat (df :: all_data))]).
      split; [simpl; by rewrite Hfiles, app_assoc|].
      rewrite fmap_app. simpl. split.
      * apply NoDup_app. split; [done|]. split; [|apply NoDup_singleton].
        intros x Hx Hx'. apply list_elem_of_singleton in Hx'. by subst x.
      * apply Forall_app. split; [done|]. repeat constructor.
  - injection Hrun as <- <-. by exists new.
Qed.

(** ** The category summary of any table *)

Lemma compare_refl s : (s ?= s)%string = Eq.
Proof.
  pose proof (String.compare_antisym s s) as H.
  destruct (s ?= s)%string; simpl in H; done.
Qed.

Lemma string_lt_irrefl s : ~ string_lt s s.
Proof. unfold string_lt, String.ltb. by rewrite compare_refl. Qed.

Lemma string_lt_le a b : string_lt a b -> String.le a b.
Proof.
  unfold string_lt, String.le, String.ltb, String.leb.
  by destruct (a ?= b)%string.
Qed.

Lemma string_lt_asym a b : string_lt a b -> ~ string_lt b a.
Proof.
  unfold string_lt, String.ltb. rewrite (String.compare_antisym b a).
  by destruct (a ?= b)%string.
Qed.

Lemma string_lt_trans a b c : string_lt a b -> string_lt b c -> string_lt a c.
Proof.
  intros Hab Hbc.
  assert (Hle : String.le a c).
  { etrans; by apply string_lt_le. }
  unfold string_lt, String.ltb. unfold String.le, String.leb in Hle.
  destruct (a ?= c)%string eqn:E; [|done|done].
  apply String.compare_eq_iff in E. subst c.
  by apply string_lt_asym in Hab.
Qed.

Lemma string_lt_total a b :
  String.eqb a b = false -> String.ltb a b = false -> string_lt b a.
Proof.
  intros Hne Hlt. apply String.eqb_neq in Hne.
  unfold string_lt, String.ltb in *. rewrite (String.compare_antisym b a).
  destruct (a ?= b)%string eqn:E; [|done|done].
  by apply String.compare_eq_iff in E.
Qed.

Lemma elem_of_group_insert x k v groups :
  x ∈ (group_insert k v groups).*1 <-> x = k \/ x ∈ groups.*1.
Proof.
  induction groups as [|[k' row] groups IH]; simpl.
  - set_solver.
  - destruct (String.eqb k k') eqn:E.
    + apply String.eqb_eq in E. subst k'. set_solver.
    + destruct (String.ltb k k'); simpl; [set_solver|].
      rewrite elem_of_cons, IH. set_solver.
Qed.

Lemma group_insert_sorted k v groups :
  StronglySorted string_lt (groups.*1) ->
  StronglySorted string_lt ((group_insert k v groups).*1).
Proof.
  induction groups as [|[k' row] groups IH]; simpl; intros Hs.
  - repeat constructor.
  - apply StronglySorted_inv in Hs as [Hs Hall].
    destruct (String.eqb k k') eqn:E; [by constructor|].
    destruct (String.ltb k k') eqn:L; simpl.
    + constructor; [by constructor|]. constructor; [done|].
      eapply Forall_impl; [exact Hall|]. intros x Hx.
      by eapply string_lt_trans.
    + constructor; [by apply IH|].
      apply Forall_forall. intros x Hx.
      apply elem_of_group_insert in Hx as [->|Hx].
      * by apply string_lt_total.
      * rewrite Forall_forall in Hall. by apply Hall.
Qed.

Lemma total_count_group_insert k v groups :
  total_count (group_insert k v groups)
  = (total_count groups + match v with NaN => 0 | _ => 1 end)%nat.
Proof.
  induction groups as [|[k' [s n]] groups IH]; simpl.
  - destruct v; simpl; lia.
  - destruct (String.eqb k k'); [destruct v; simpl; lia|].
    destruct (String.ltb k k'); simpl; [destruct v; simpl; lia|].
    rewrite IH. lia.
Qed.

Lemma total_sum_group_insert k v groups :
  (total_sum (group_insert k v groups) == total_sum groups + amount_of v)%Q.
Proof.
  induction groups as [|[k' [s n]] groups IH]; simpl.
  - destruct v; simpl; rewrite ?Qred_correct; ring.
  - destruct (String.eqb k k');
      [destruct v; simpl; rewrite ?Qred_correct; ring|].
    destruct (String.ltb k k'); simpl;
      [destruct v; simpl; rewrite ?Qred_correct; ring|].
    rewrite IH. ring.
Qed.

Lemma groupby_map_dict (m : gmap string string) types amounts groups :
  fold_left (fun groups kv =>
               match kv.1 with
               | Str k => group_insert k kv.2 groups
               | _ => groups
               end) (zip (map_dict m types) amounts) groups
  = fold_left (fun groups row =>
                 match category_of m row.1 with
                 | Some k => group_insert k row.2 groups
                 | None => groups
                 end) (zip types amounts) groups.
Proof.
  revert amounts groups.
  induction types as [|t types IH]; intros [|a amounts] groups; try done.
  unfold map_dict in *. rewrite fmap_cons. simpl zip. simpl fold_left.
  rewrite IH. f_equal.
  destruct t as [|code| |]; simpl; try done.
  by destruct (m !! code).
Qed.

Lemma award_type_map_categories code category :
  Doi.award_type_map !! code = Some category ->
  category ∈ Doi.award_categories.
Proof.
  intros H. unfold Doi.award_type_map in H.
  apply elem_of_list_to_map_2 in H. unfold Doi.award_categories.
  repeat (apply elem_of_cons in H as [[= -> ->]|H];
          [apply (bool_decide_unpack _); vm_compute; exact I|]).
  by apply elem_of_nil in H.
Qed.

Lemma counted_cases m t a :
  counted m (t, a)
  = match category_of m t, a with
    | Some _, NaN => false
    | Some _, _ => true
    | None, _ => false
    end.
Proof.
  unfold counted, category_of. simpl.
  destruct t as [|code| |]; try done.
  destruct (m !! code) eqn:E.
  - rewrite bool_decide_eq_true_2 by done. by destruct a.
  - rewrite bool_decide_eq_false_2 by (intros [? ?]; done). by destruct a.
Qed.

Lemma categorized_cases m t a :
  categorized m (t, a) = bool_decide (is_Some (category_of m t)).
Proof.
  unfold categorized, category_of. simpl.
  destruct t as [|code| |]; try done;
    rewrite bool_decide_eq_false_2; try done; intros [? ?]; done.
Qed.

Lemma groupby_rows (m : gmap string string) (P : string -> Prop) rows :
  (forall code k, m !! code = Some k -> P k) ->
  forall groups,
    StronglySorted string_lt (groups.*1) ->
    Forall P (groups.*1) ->
    let summary :=
      fold_left (fun groups row =>
                   match category_of m row.1 with
                   | Some k => group_insert k row.2 groups
                   | None => groups
                   end) rows groups in
    StronglySorted string_lt (summary.*1)
    /\ Forall P (summary.*1)
    /\ total_count summary
       = (total_count groups + length (List.filter (counted m) rows))%nat
    /\ (total_sum summary
        == total_sum groups
           + total_amount (List.filter (categorized m) rows))%Q.
Proof.
  intros Hm.
  induction rows as [|[t a] rows IH]; intros groups Hs Hc; cbv zeta.
  - simpl. split; [done|]. split; [done|]. split; [lia|]. ring.
  - cbn [fold_left List.filter fst snd].
    rewrite counted_cases, categorized_cases.
    destruct (category_of m t) as [k|] eqn:Hk.
    + rewrite bool_decide_eq_true_2 by done.
      destruct (IH (group_insert k a groups)) as (H1 & H2 & H3 & H4).
      { by apply group_insert_sorted. }
      { apply Forall_forall. intros x Hx.
        apply elem_of_group_insert in Hx as [->|Hx].
        - destruct t; try done. by eapply Hm.
        - rewrite Forall_forall in Hc. by apply Hc. }
      split; [done|]. split; [done|]. split.
      * rewrite H3, total_count_group_insert. destruct a; simpl; lia.
      * rewrite H4, total_sum_group_insert. simpl. ring.
    + rewrite bool_decide_eq_false_2 by (intros [? ?]; done).
      destruct (IH groups Hs Hc) as (H1 & H2 & H3 & H4).
      split; [done|]. split; [done|]. split; [|done].
      rewrite H3. by destruct a.
Qed.

(** X16: the category summary of [main] for a table whose amounts are whole
    numbers or missing, of magnitudes that add up to less than 2^53, so
    that every sum pandas forms in float64 is exact. Its rows are keyed by
    some of the five categories, in strictly increasing order of the key
    (so no category twice); the counts add up to the number of rows of the
    table that have a category and a non-null amount, and the sums add up
    to the total amount of the rows that have a category. A row whose
    award type is not a key of the lookup table is left out. *)
Theorem category_summary_accounts (final_df : DataFrame) types amounts :
  get_column "Award Type" final_df = Returned types ->
  get_column "Transaction Amount" final_df = Returned amounts ->
  Forall (fun c => whole_amount c = true) amounts ->
  total_magnitude amounts < 2 ^ 53 ->
  exists summary,
    Doi.category_summary final_df = Returned summary
    /\ StronglySorted string_lt (summary.*1)
    /\ Forall (.∈ Doi.award_categories) (summary.*1)
    /\ total_count summary
       = length (List.filter (counted Doi.award_type_map)
                             (zip types amounts))
    /\ (total_sum summary
        == total_amount (List.filter (categorized Doi.award_type_map)
                                     (zip types amounts)))%Q.
Proof.
  intros Htype Hamount _ _.
  unfold Doi.category_summary, mbind, result_bind.
  rewrite Htype. cbv beta iota zeta.
  rewrite get_set_column_eq, get_set_column_ne, Hamount by done.
  eexists. split; [reflexivity|].
  unfold groupby_sum_count. rewrite groupby_map_dict.
  destruct (groupby_rows Doi.award_type_map (.∈ Doi.award_categories)
              (zip types amounts) award_type_map_categories [])
    as (H1 & H2 & H3 & H4); [constructor|constructor|].
  split; [done|]. split; [done|]. split; [done|].
  rewrite H4. change (total_sum []) with 0%Q. ring.
Qed.

(** ** Runs of [main] of the personnel script *)

(** X17: when the first answer is without records (an exception, a status
    other than 200, a body that is not JSON or is an object without
    'results', an empty list), [main] of the personnel script ends normally
    after that one request and writes no file. *)
Theorem ees_main_without_data
    (td : list cell -> result (list cell)) (nos : string -> option Q)
    (fa : Q -> string) fuel up w :
  let p := Ees.payload Ees.start_date Ees.end_date in
  (0 < fuel)%nat ->
  no_records (up (set_page p 1)) = true ->
  Ees.main td nos fa fuel up w = Some (None, posted [set_page p 1] w).
Proof.
  intros p Hfuel Hfirst. unfold Ees.main.
  rewrite (ees_fetch_stops_without_records up _ _ 0
             (fun _ => []) fuel w); [done|lia| |done].
  intros i Hi. lia.
Qed.

(** X18: the pages 1 .. n carry at least 100 records each, the answer for
    page n+1 is without records (for instance it is an error), some
    fetched record has a field (so n is at least 1 and the table is not
    empty), and [process_results] returns the table [df] for the fetched
    records. Then [main] writes the one file, holding [df] with a row for
    each record of the pages 1 .. n, as for a complete download, and ends
    normally unless the table has a 'Transaction Amount' column but lacks
    'Awarding Sub Agency' or 'Award Type', which is a KeyError after the
    file is written. *)
Theorem ees_main_writes_partial_data
    (td : list cell -> result (list cell)) (nos : string -> option Q)
    (fa : Q -> string) fuel up w (n : nat) pages df r k :
  let p := Ees.payload Ees.start_date Ees.end_date in
  let results := mjoin (pages <$> seqZ 1 (Z.of_nat n)) in
  (n < fuel)%nat ->
  serves_full_pages up p n pages ->
  no_records (up (set_page p (Z.of_nat n + 1))) = true ->
  Ees.process_results td nos fa results = Returned df ->
  r ∈ results -> k ∈ r.*1 ->
  exists out,
    Ees.main td nos fa fuel up w
    = Some (out,
            {| requests := requests w ++ page_requests p 1 (Z.of_nat n + 1);
               files := files w ++ [(Ees.filename, df)] |})
    /\ nrows df = length results
    /\ out = (if has_column "Transaction Amount" df
                 && negb (has_column "Awarding Sub Agency" df
                          && has_column "Award Type" df)
              then Some KeyError else None).
Proof.
  intros p results Hfuel Hfull Hlast Hdf Hr Hk.
  destruct (ees_process_results_keeps td nos fa results df Hdf)
    as (Hrows & Hcols & _).
  unfold Ees.main.
  rewrite (ees_fetch_stops_without_records up _ _ n pages fuel w) by done.
  fold p results. rewrite Hdf.
  rewrite (has_column_not_empty k df); [|by eapply Hcols|]; last first.
  { rewrite Hrows. destruct results; [by apply elem_of_nil in Hr|simpl; lia]. }
  unfold Ees.print_summaries, get_column.
  rewrite (has_column_assoc "Awarding Sub Agency" df).
  rewrite (has_column_assoc "Award Type" df).
  eexists (if has_column "Transaction Amount" df
              && negb (bool_decide (is_Some (assoc "Awarding Sub Agency"
                                                   (columns df)))
                       && bool_decide (is_Some (assoc "Award Type"
                                                      (columns df))))
           then Some KeyError else None).
  split; [|done].
  destruct (has_column "Transaction Amount" df); [|reflexivity].
  destruct (assoc "Awarding Sub Agency" (columns df)),
           (assoc "Award Type" (columns df)); reflexivity.
Qed.

(** X21: the pages 1 .. n carry at least 100 records each and the answer
    for page n+1 has status 200 and a body that is JSON but not an object:
    [main] of the personnel script ends with the AttributeError and writes
    no file, so the records of the pages 1 .. n are lost. *)
Theorem ees_main_body_not_an_object
    (td : list cell -> result (list cell)) (nos : string -> option Q)
    (fa : Q -> string) fuel up w (n : nat) pages :
  let p := Ees.payload Ees.start_date Ees.end_date in
  (n < fuel)%nat ->
  serves_full_pages up p n pages ->
  up (set_page p (Z.of_nat n + 1)) = Response 200 NotObject ->
  Ees.main td nos fa fuel up w
  = Some (Some AttributeError,
          posted (page_requests p 1 (Z.of_nat n + 1)) w).
Proof.
  intros p Hfuel Hfull Hlast. unfold Ees.main.
  by rewrite (ees_fetch_not_an_object up _ _ n pages fuel w).
Qed.

(** ** The further properties on sample runs *)

Lemma fetch_award_history_trace_witness :
  let p := Doi.payload "2023-10-01" "2023-10-07" in
  let w' := posted (page_requests p 1 2) world0 in
  Doi.fetch_award_history 2 mock_error_on_page_2 "2023-10-01" "2023-10-07"
                          world0
  = Some (Returned (sample_page 100), w')
  /\ exists k : nat,
      (1 <= k)%nat
      /\ requests w' = requests world0 ++ page_requests p 1 (Z.of_nat k)
      /\ files w' = files world0
      /\ (forall i, 1 <= i < Z.of_nat k ->
                    exists rs, serves mock_error_on_page_2 p i rs
                               /\ (100 <= length rs)%nat)
      /\ sample_page 100
         = mjoin (page_results mock_error_on_page_2 p <$> seqZ 1 (Z.of_nat k)).
Proof.
  split; [vm_compute; reflexivity|].
  apply (fetch_award_history_trace mock_error_on_page_2 "2023-10-01"
           "2023-10-07" 2 world0 (Returned (sample_page 100))).
  vm_compute. reflexivity.
Defined.

Lemma fetch_personnel_spending_trace_witness :
  let p := Ees.payload "2023-10-01" "2024-09-30" in
  let w' := posted (page_requests p 1 2) world0 in
  Ees.fetch_personnel_spending 2 mock_error_on_page_2 "2023-10-01"
                               "2024-09-30" world0
  = Some (Returned (sample_page 100), w')
  /\ exists k : nat,
      (1 <= k)%nat
      /\ requests w' = requests world0 ++ page_requests p 1 (Z.of_nat k)
      /\ files w' = files world0
      /\ (forall i, 1 <= i < Z.of_nat k ->
                    exists rs, serves mock_error_on_page_2 p i rs
                               /\ (100 <= length rs)%nat)
      /\ sample_page 100
         = mjoin (page_results mock_error_on_page_2 p <$> seqZ 1 (Z.of_nat k)).
Proof.
  split; [vm_compute; reflexivity|].
  apply (fetch_personnel_spending_trace mock_error_on_page_2 "2023-10-01"
           "2024-09-30" 2 world0 (sample_page 100)).
  vm_compute. reflexivity.
Defined.

Lemma fetchers_run_on_while_pages_are_full_witness :
  endless mock_endless (Doi.payload "2023-10-01" "2023-10-07")
  /\ endless mock_endless (Ees.payload "2023-10-01" "2024-09-30")
  /\ Doi.fetch_award_history 1000 mock_endless "2023-10-01" "2023-10-07"
                             world0 = None
  /\ Ees.fetch_personnel_spending 1000 mock_endless "2023-10-01" "2024-09-30"
                                  world0 = None.
Proof.
  assert (Hd : endless mock_endless (Doi.payload "2023-10-01" "2023-10-07")).
  { intros i _. exists (sample_page 100). split; [reflexivity|].
    unfold sample_page. rewrite length_replicate. lia. }
  assert (He : endless mock_endless (Ees.payload "2023-10-01" "2024-09-30")).
  { intros i _. exists (sample_page 100). split; [reflexivity|].
    unfold sample_page. rewrite length_replicate. lia. }
  split; [exact Hd|]. split; [exact He|]. split.
  - exact (proj1 (fetchers_run_on_while_pages_are_full mock_endless
                    "2023-10-01" "2023-10-07" 1000 world0) Hd).
  - exact (proj2 (fetchers_run_on_while_pages_are_full mock_endless
                    "2023-10-01" "2024-09-30" 1000 world0) He).
Defined.

Lemma fetch_award_history_missing_results_witness :
  let p := Doi.payload "2023-10-01" "2023-10-07" in
  serves_full_pages mock_missing_results_on_page_2 p 1
                    (fun _ => sample_page 100)
  /\ Doi.fetch_award_history 2 mock_missing_results_on_page_2 "2023-10-01"
                             "2023-10-07" world0
     = Some (Raised KeyError, posted (page_requests p 1 2) world0).
Proof.
  assert (Hfull : serves_full_pages mock_missing_results_on_page_2
                    (Doi.payload "2023-10-01" "2023-10-07") 1
                    (fun _ => sample_page 100)).
  { intros i Hi. assert (i = 1) as -> by lia. split; [reflexivity|].
    unfold sample_page. rewrite length_replicate. lia. }
  split; [exact Hfull|].
  apply (fetch_award_history_missing_results mock_missing_results_on_page_2
           "2023-10-01" "2023-10-07" 1 (fun _ => sample_page 100) 2 world0);
    [lia | exact Hfull | reflexivity].
Defined.

Lemma fetch_personnel_spending_returns_accumulated_witness :
  let p := Ees.payload "2023-10-01" "2024-09-30" in
  serves_full_pages mock_error_on_page_2 p 1 (fun _ => sample_page 100)
  /\ no_records (mock_error_on_page_2 (set_page p 2)) = true
  /\ Ees.fetch_personnel_spending 2 mock_error_on_page_2 "2023-10-01"
                                  "2024-09-30" world0
     = Some (Returned (mjoin ((fun _ => sample_page 100) <$> seqZ 1 1)),
             posted (page_requests p 1 2) world0).
Proof.
  assert (Hfull : serves_full_pages mock_error_on_page_2
                    (Ees.payload "2023-10-01" "2024-09-30") 1
                    (fun _ => sample_page 100)).
  { intros i Hi. assert (i = 1) as -> by lia. split; [reflexivity|].
    unfold sample_page. rewrite length_replicate. lia. }
  split; [exact Hfull|]. split; [reflexivity|].
  apply (fetch_personnel_spending_returns_accumulated mock_error_on_page_2
           "2023-10-01" "2024-09-30" 1 (fun _ => sample_page 100) 2 world0);
    [lia | exact Hfull | reflexivity].
Defined.



Lemma process_results_keeps_rows_and_fields_witness :
  let data := [sample_record "A" 100; sample_record "02" 50] in
  Doi.process_results keep_column no_number whole_dollars data
  = Returned sample_table
  /\ nrows sample_table = length data
  /\ (forall r k, r ∈ data -> k ∈ r.*1 -> has_column k sample_table = true)
  /\ (has_column "Transaction Amount" sample_table = true ->
      has_column "Amount" sample_table = true).
Proof.
  split; [vm_compute; reflexivity|].
  apply (proj1 (process_results_keeps_rows_and_fields keep_column no_number
                  whole_dollars _) sample_table).
  vm_compute. reflexivity.
Defined.

Lemma main_stops_at_first_exception_witness :
  let weeks := yielded (Doi.get_week_ranges Doi.start_date Doi.end_date) in
  weeks !! 1%nat = Some ("2023-10-08", "2023-10-14")
  /\ forallb (week_completes keep_column no_number whole_dollars 1
                             mock_bad_week) (take 1 weeks) = true
  /\ week_table keep_column no_number whole_dollars 1 mock_bad_week
                ("2023-10-08", "2023-10-14") = Some (Raised KeyError)
  /\ Doi.main keep_column no_number whole_dollars 1 mock_bad_week world0
     = Some (Some KeyError,
             {| requests :=
                  requests world0
                  ++ mjoin (week_requests 1 mock_bad_week <$> take 2 weeks);
                files :=
                  files world0
                  ++ week_files keep_column no_number whole_dollars 1
                                mock_bad_week (enumerate 1 (take 1 weeks)) |}).
Proof.
  split; [vm_compute; reflexivity|]. split; [vm_compute; reflexivity|].
  split; [vm_compute; reflexivity|].
  apply (main_stops_at_first_exception keep_column no_number whole_dollars 1
           mock_bad_week world0 1 ("2023-10-08", "2023-10-14") KeyError);
    vm_compute; reflexivity.
Defined.

Lemma main_writes_each_path_once_witness :
  exists out w',
    Doi.main keep_column no_number whole_dollars 1 mock_one_week world0
    = Some (out, w')
    /\ exists new,
        files w' = files world0 ++ new
        /\ NoDup (new.*1)
        /\ Forall (fun path =>
                     path = Doi.complete_filename
                     \/ exists n : nat,
                         (1 <= n <= length (yielded (Doi.get_week_ranges
                                                       Doi.start_date
                                                       Doi.end_date)))%nat
                         /\ path = Doi.week_filename n) (new.*1).
Proof.
  eexists _, _. split; [vm_compute; reflexivity|].
  eapply (main_writes_each_path_once keep_column no_number whole_dollars 1
            mock_one_week world0).
  vm_compute. reflexivity.
Defined.

Lemma category_summary_accounts_witness :
  let types := [Str "A"; Str "02"] in
  let amounts := [Num 100; Num 50] in
  get_column "Award Type" sample_table = Returned types
  /\ get_column "Transaction Amount" sample_table = Returned amounts
  /\ Forall (fun c => whole_amount c = true) amounts
  /\ total_magnitude amounts < 2 ^ 53
  /\ exists summary,
      Doi.category_summary sample_table = Returned summary
      /\ StronglySorted string_lt (summary.*1)
      /\ Forall (.∈ Doi.award_categories) (summary.*1)
      /\ total_count summary
         = length (List.filter (counted Doi.award_type_map)
                               (zip types amounts))
      /\ (total_sum summary
          == total_amount (List.filter (categorized Doi.award_type_map)
                                       (zip types amounts)))%Q.
Proof.
  split; [reflexivity|]. split; [reflexivity|].
  split; [repeat constructor|]. split; [reflexivity|].
  apply (category_summary_accounts sample_table);
    [reflexivity | reflexivity | repeat constructor | reflexivity].
Defined.

Lemma ees_main_without_data_witness :
  let p := Ees.payload Ees.start_date Ees.end_date in
  no_records (mock_empty (set_page p 1)) = true
  /\ Ees.main keep_column no_number whole_dollars 1 mock_empty world0
     = Some (None, posted [set_page p 1] world0).
Proof.
  split; [reflexivity|].
  apply (ees_main_without_data keep_column no_number whole_dollars 1
           mock_empty world0); [lia | reflexivity].
Defined.

Lemma ees_main_writes_partial_data_witness :
  let p := Ees.payload Ees.start_date Ees.end_date in
  let pages := fun _ : Z => sample_page 100 in
  let results := mjoin (pages <$> seqZ 1 1) in
  serves_full_pages mock_error_on_page_2 p 1 pages
  /\ no_records (mock_error_on_page_2 (set_page p 2)) = true
  /\ Ees.process_results keep_column no_number whole_dollars results
     = Returned sample_personnel_table
  /\ exists out,
      Ees.main keep_column no_number whole_dollars 2 mock_error_on_page_2
                world0
      = Some (out,
              {| requests := requests world0 ++ page_requests p 1 2;
                 files := files world0
                          ++ [(Ees.filename, sample_personnel_table)] |})
      /\ nrows sample_personnel_table = length results
      /\ out = (if has_column "Transaction Amount" sample_personnel_table
                   && negb (has_column "Awarding Sub Agency"
                                       sample_personnel_table
                            && has_column "Award Type" sample_personnel_table)
                then Some KeyError else None).
Proof.
  assert (Hfull : serves_full_pages mock_error_on_page_2
                    (Ees.payload Ees.start_date Ees.end_date) 1
                    (fun _ => sample_page 100)).
  { intros i Hi. assert (i = 1) as -> by lia. split; [reflexivity|].
    unfold sample_page. rewrite length_replicate. lia. }
  split; [exact Hfull|]. split; [reflexivity|].
  split; [vm_compute; reflexivity|].
  apply (ees_main_writes_partial_data keep_column no_number whole_dollars 2
           mock_error_on_page_2 world0 1 (fun _ => sample_page 100)
           sample_personnel_table (sample_record "A" 1) "Award Type");
    [lia | exact Hfull | reflexivity | vm_compute; reflexivity | | ].
  - apply (list_elem_of_lookup_2 _ 0%nat). reflexivity.
  - apply list_elem_of_here.
Defined.

Lemma fetchers_body_not_an_object_witness :
  let pd := Doi.payload "2023-10-01" "2023-10-07" in
  let pe := Ees.payload "2023-10-01" "2024-09-30" in
  serves_full_pages mock_list_on_page_2 pd 1 (fun _ => sample_page 100)
  /\ serves_full_pages mock_list_on_page_2 pe 1 (fun _ => sample_page 100)
  /\ Doi.fetch_award_history 2 mock_list_on_page_2 "2023-10-01" "2023-10-07"
                             world0
     = Some (Raised TypeError, posted (page_requests pd 1 2) world0)
  /\ Ees.fetch_personnel_spending 2 mock_list_on_page_2 "2023-10-01"
                                  "2024-09-30" world0
     = Some (Raised AttributeError, posted (page_requests pe 1 2) world0).
Proof.
  assert (Hd : serves_full_pages mock_list_on_page_2
                 (Doi.payload "2023-10-01" "2023-10-07") 1
                 (fun _ => sample_page 100)).
  { intros i Hi. assert (i = 1) as -> by lia. split; [reflexivity|].
    unfold sample_page. rewrite length_replicate. lia. }
  assert (He : serves_full_pages mock_list_on_page_2
                 (Ees.payload "2023-10-01" "2024-09-30") 1
                 (fun _ => sample_page 100)).
  { intros i Hi. assert (i = 1) as -> by lia. split; [reflexivity|].
    unfold sample_page. rewrite length_replicate. lia. }
  split; [exact Hd|]. split; [exact He|]. split.
  - apply (proj1 (fetchers_body_not_an_object mock_list_on_page_2
                    "2023-10-01" "2023-10-07" 1 (fun _ => sample_page 100)
                    2 world0 ltac:(lia)) Hd).
    reflexivity.
  - apply (proj2 (fetchers_body_not_an_object mock_list_on_page_2
                    "2023-10-01" "2024-09-30" 1 (fun _ => sample_page 100)
                    2 world0 ltac:(lia)) He).
    reflexivity.
Defined.

Lemma ees_main_body_not_an_object_witness :
  let p := Ees.payload Ees.start_date Ees.end_date in
  serves_full_pages mock_list_on_page_2 p 1 (fun _ => sample_page 100)
  /\ Ees.main keep_column no_number whole_dollars 2 mock_list_on_page_2
              world0
     = Some (Some AttributeError, posted (page_requests p 1 2) world0).
Proof.
  assert (Hfull : serves_full_pages mock_list_on_page_2
                    (Ees.payload Ees.start_date Ees.end_date) 1
                    (fun _ => sample_page 100)).
  { intros i Hi. assert (i = 1) as -> by lia. split; [reflexivity|].
    unfold sample_page. rewrite length_replicate. lia. }
  split; [exact Hfull|].
  apply (ees_main_body_not_an_object keep_column no_number whole_dollars 2
           mock_list_on_page_2 world0 1 (fun _ => sample_page 100));
    [lia | exact Hfull | reflexivity].
Defined.
